(** * A UniFi-compatible DDNS endpoint in front of the Cloudflare API

    Shallow embedding of [index.js]: the request handler [handleRequest],
    the credential parser [basicAuthentication], the parameter check
    [verifyParameters], the three operations of the [Cloudflare] client,
    the update flow [informAPI] and the [catch] handler of the fetch
    listener, followed by the properties of the specification. *)

From Stdlib Require Import ZArith NArith List String Ascii Lia Bool DecimalString.
From stdpp Require Import base option list gmap.
Import ListNotations.

Local Open Scope Z_scope.
Close Scope string_scope.
#[local] Set Warnings "-register-all".

(** ** JavaScript strings

    A JavaScript string is a sequence of UTF-16 code units; [length] is
    [String.prototype.length], the number of code units. *)

Abbreviation jsstring := (list N).

(** The code units of a source-text literal (ASCII in [index.js]). *)
Definition lit (s : string) : jsstring :=
  map N_of_ascii (list_ascii_of_string s).
Arguments lit : simpl never.

(** [s === t] on strings. *)
Definition str_eqb (s t : jsstring) : bool := bool_decide (s = t).

(** A value that is either a string or [null] ([Headers.get],
    [URLSearchParams.get]), and its conversion by a template literal or
    by [+] with a string. *)
Definition nullable_to_string (o : option jsstring) : jsstring :=
  match o with
  | Some s => s
  | None => lit "null"
  end.

(** [s.indexOf(c)] for a one-unit needle: the first position, or [-1]. *)
Fixpoint indexOf (c : N) (s : jsstring) : Z :=
  match s with
  | [] => -1
  | x :: s' =>
      if N.eqb x c then 0
      else let i := indexOf c s' in if i =? -1 then -1 else i + 1
  end.

(** [s.substring(a, b)]: both ends are clamped to [0 .. length] and
    swapped when out of order. *)
Definition substring (a b : Z) (s : jsstring) : jsstring :=
  let n := Z.of_nat (length s) in
  let a' := Z.min (Z.max a 0) n in
  let b' := Z.min (Z.max b 0) n in
  let lo := Z.min a' b' in
  let hi := Z.max a' b' in
  take (Z.to_nat (hi - lo)) (drop (Z.to_nat lo) s).

(** [s.substring(a)]: to the end of the string. *)
Definition substring_from (a : Z) (s : jsstring) : jsstring :=
  substring a (Z.of_nat (length s)) s.

(** [s.split(" ")]: the pieces between every occurrence of the
    separator (always at least one piece). *)
Fixpoint split (sep : N) (s : jsstring) : list jsstring :=
  match s with
  | [] => [[]]
  | x :: s' =>
      if N.eqb x sep then [] :: split sep s'
      else match split sep s' with
           | p :: ps => (x :: p) :: ps
           | [] => [[x]]
           end
  end.

(** [/[\0-\x1F\x7F]/.test(s)]: some code unit is an ASCII control. *)
Definition is_control (c : N) : bool := (c <=? 31)%N || (c =? 127)%N.
Definition has_control (s : jsstring) : bool := existsb is_control s.

(** ASCII lower-casing, as applied to header names by [Headers]. *)
Definition lower_unit (c : N) : N :=
  if ((65 <=? c) && (c <=? 90))%N then (c + 32)%N else c.
Definition lowercase (s : jsstring) : jsstring := map lower_unit s.

(** Decimal digits of a non-negative array or string length, as
    [Headers] stores a number. *)
Definition decimal (n : nat) : jsstring :=
  lit (NilEmpty.string_of_uint (Nat.to_uint n)).

(** The UTF-8 bytes of a string, as [new Response(text)] stores its
    body: surrogate pairs are combined, a lone surrogate becomes
    U+FFFD. *)
Definition utf8_of_scalar (c : N) : list N :=
  if (c <? 128)%N then [c]
  else if (c <? 2048)%N then
    [192 + c / 64; 128 + c mod 64]%N
  else if (c <? 65536)%N then
    [224 + c / 4096; 128 + (c / 64) mod 64; 128 + c mod 64]%N
  else
    [240 + c / 262144; 128 + (c / 4096) mod 64;
     128 + (c / 64) mod 64; 128 + c mod 64]%N.

Definition is_high_surrogate (c : N) : bool := (55296 <=? c)%N && (c <=? 56319)%N.
Definition is_low_surrogate (c : N) : bool := (56320 <=? c)%N && (c <=? 57343)%N.

Fixpoint utf8_encode (s : jsstring) : list N :=
  match s with
  | [] => []
  | c :: s' =>
      if is_high_surrogate c then
        match s' with
        | d :: s'' =>
            if is_low_surrogate d then
              utf8_of_scalar (65536 + (c - 55296) * 1024 + (d - 56320))%N
                ++ utf8_encode s''
            else utf8_of_scalar 65533 ++ utf8_encode s'
        | [] => utf8_of_scalar 65533
        end
      else if is_low_surrogate c then utf8_of_scalar 65533 ++ utf8_encode s'
      else utf8_of_scalar c ++ utf8_encode s'
  end.

(** Keyed pairs in order (query parameters, the members of an object,
    the headers of an initialiser): the first entry of a key, and
    assignment to a key, which overwrites in place or appends. *)
Fixpoint assoc {A : Type} (key : jsstring) (l : list (jsstring * A)) : option A :=
  match l with
  | [] => None
  | (k, v) :: l' => if str_eqb k key then Some v else assoc key l'
  end.

Fixpoint assoc_set {A : Type} (key : jsstring) (v : A) (l : list (jsstring * A))
  : list (jsstring * A) :=
  match l with
  | [] => [(key, v)]
  | (k, w) :: l' =>
      if str_eqb k key then (k, v) :: l' else (k, w) :: assoc_set key v l'
  end.

(** ** Requests, responses and failures *)

(** The components of [new URL(request.url)] the handler reads.
    [searchParams] keeps the query pairs in order. *)
Record URL := mkURL {
  protocol : jsstring;
  pathname : jsstring;
  searchParams : list (jsstring * jsstring)
}.

(** [url.searchParams.get(name)]: the first value of that name, else
    [null]. *)
Definition searchParams_get (name : jsstring) (q : list (jsstring * jsstring))
  : option jsstring := assoc name q.

(** A [Request]: its URL and its [Headers], a map from lower-cased
    header names to values. *)
Record Request := mkRequest {
  url : URL;
  headers : gmap (list N) (list N)
}.

(** [request.headers.get(name)] and [request.headers.has(name)]: header
    names are matched without regard to case. *)
Definition headers_get (request : Request) (name : jsstring) : option jsstring :=
  headers request !! lowercase name.

Definition headers_has (request : Request) (name : jsstring) : bool :=
  bool_decide (is_Some (headers request !! lowercase name)).

(** The [statusText] member of a response initialiser. *)
Inductive init_text :=
| TextAbsent
| TextNull
| Text (s : jsstring).

(** [new Response(body, {status, statusText, headers})], as the code
    builds it. *)
Record Response := mkResponse {
  body : option jsstring;
  status : Z;
  statusText : init_text;
  response_headers : list (jsstring * jsstring)
}.

(** The bytes of the body a response carries. *)
Definition body_bytes (r : Response) : list N :=
  match body r with
  | Some s => utf8_encode s
  | None => []
  end.

(** A header of the response, by exact name. *)
Definition response_header (name : jsstring) (r : Response) : option jsstring :=
  searchParams_get name (response_headers r).

(** What can be thrown: the three exception classes of [index.js], and
    any error object of the runtime (a [TypeError], a [DOMException], a
    [SyntaxError] of [response.json()], a rejected [fetch]), of which
    the handler only reads [stack]. *)
Inductive exn :=
| UnauthorizedException (reason : jsstring)
| BadRequestException (reason : jsstring)
| CloudflareApiException (reason : jsstring)
| RuntimeError (stack : option jsstring).

(** [err.status], [err.statusText], [err.reason], [err.stack]; [None]
    is [undefined]. *)
Definition exn_status (e : exn) : option Z :=
  match e with
  | UnauthorizedException _ => Some 401
  | BadRequestException _ => Some 400
  | CloudflareApiException _ => Some 500
  | RuntimeError _ => None
  end.

Definition exn_statusText (e : exn) : option jsstring :=
  match e with
  | UnauthorizedException _ => Some (lit "Unauthorized")
  | BadRequestException _ => Some (lit "Bad Request")
  | CloudflareApiException _ => Some (lit "Internal Server Error")
  | RuntimeError _ => None
  end.

Definition exn_reason (e : exn) : option jsstring :=
  match e with
  | UnauthorizedException r | BadRequestException r
  | CloudflareApiException r => Some r
  | RuntimeError _ => None
  end.

Definition exn_stack (e : exn) : option jsstring :=
  match e with
  | RuntimeError s => s
  | _ => None
  end.

(** The result of a call: a value, or a thrown exception. *)
Inductive outcome (A : Type) :=
| Return (a : A)
| Throw (e : exn).
Arguments Return {A} a.
Arguments Throw {A} e.

Definition bind_outcome {A B : Type} (o : outcome A) (k : A -> outcome B)
  : outcome B :=
  match o with
  | Return a => k a
  | Throw e => Throw e
  end.

Notation "'let!' x ':=' o 'in' k" := (bind_outcome o (fun x => k))
  (at level 10, x pattern, o at level 100, k at level 200).

(** The results of a list of steps taken in order: the first exception,
    else all the values. *)
Fixpoint all_results {A : Type} (l : list (outcome A)) : outcome (list A) :=
  match l with
  | [] => Return []
  | o :: l' =>
      let! a := o in
      let! rest := all_results l' in
      Return (a :: rest)
  end.

(** ** The runtime

    What the script takes from the JavaScript engine and the Workers
    platform. [number] is the type of JSON numbers, the engine's
    doubles: the handler only compares one with [0] and prints one
    inside a URL. *)
Class Runtime (number : Type) := {
  (** [n === 0] *)
  number_is_zero : number -> bool;
  (** the text of a number in a template literal *)
  number_to_string : number -> jsstring;
  (** [atob]: the binary string of a base64 text (one code unit below
      256 per byte), or the [stack] of the [DOMException] it throws *)
  atob : jsstring -> option jsstring + jsstring;
  (** [new TextDecoder().decode]: the text of UTF-8 bytes *)
  TextDecoder_decode : list N -> jsstring;
  (** [String.prototype.normalize] (NFC) *)
  normalize : jsstring -> jsstring;
  (** the [stack] of a [TypeError] the engine raises on a property
      access or assignment *)
  TypeError_stack : option jsstring
}.

Section Worker.

Context {number : Type} `{Runtime number}.

Definition TypeError : exn := RuntimeError TypeError_stack.

(** ** JSON values

    What [response.json()] gives, and [undefined]. The members of an
    object are its own properties in order, each name once. *)

Inductive value :=
| VUndefined
| VNull
| VBool (b : bool)
| VNumber (n : number)
| VString (s : jsstring)
| VArray (l : list value)
| VObject (members : list (jsstring * value)).

(** [Array.prototype.join] with the default separator. *)
Fixpoint join_comma (l : list jsstring) : jsstring :=
  match l with
  | [] => []
  | [s] => s
  | s :: l' => s ++ lit "," ++ join_comma l'
  end.

(** The string a template literal makes of a value ([ToString]). An
    array is joined, its elements converted in order, [undefined] and
    [null] giving the empty string. An object parsed from JSON inherits
    [Object.prototype.toString], which gives [[object Object]], unless
    it has a member named [toString] of its own: that member is not a
    function, [valueOf] gives no primitive either, and the conversion
    throws a [TypeError]. *)
Fixpoint to_string (v : value) : outcome jsstring :=
  match v with
  | VUndefined => Return (lit "undefined")
  | VNull => Return (lit "null")
  | VBool true => Return (lit "true")
  | VBool false => Return (lit "false")
  | VNumber n => Return (number_to_string n)
  | VString s => Return s
  | VArray l =>
      let! parts :=
        all_results
          (map (fun x => match x with
                         | VUndefined | VNull => Return []
                         | _ => to_string x
                         end) l) in
      Return (join_comma parts)
  | VObject members =>
      match assoc (lit "toString") members with
      | Some _ => Throw TypeError
      | None => Return (lit "[object Object]")
      end
  end.

(** How deep arrays are nested in a value. *)
Fixpoint array_depth (v : value) : nat :=
  match v with
  | VArray l => S (list_max (map array_depth l))
  | _ => 0
  end.

(** [v.key] for the member names the client reads ([success], [result],
    [id], [zone_id]): none is an index, [length], or inherited. *)
Definition member (v : value) (key : jsstring) : outcome value :=
  match v with
  | VUndefined | VNull => Throw TypeError
  | VObject kv => Return (default VUndefined (assoc key kv))
  | _ => Return VUndefined
  end.

(** [v.length === 0]. *)
Definition length_is_zero (v : value) : outcome bool :=
  match v with
  | VUndefined | VNull => Throw TypeError
  | VArray l => Return (match l with [] => true | _ => false end)
  | VString s => Return (match s with [] => true | _ => false end)
  | VObject kv =>
      Return (match assoc (lit "length") kv with
              | Some (VNumber n) => number_is_zero n
              | _ => false
              end)
  | _ => Return false
  end.

(** [v[0]]. *)
Definition first_element (v : value) : outcome value :=
  match v with
  | VUndefined | VNull => Throw TypeError
  | VArray l => Return (match l with x :: _ => x | [] => VUndefined end)
  | VString s => Return (match s with c :: _ => VString [c] | [] => VUndefined end)
  | VObject kv => Return (default VUndefined (assoc (lit "0") kv))
  | _ => Return VUndefined
  end.

(** [record.content = v] in the strict code of a class body: a
    [TypeError] on [undefined], [null] and primitives; on an array the
    new property is outside what is read or serialised afterwards. *)
Definition set_content (record v : value) : outcome value :=
  match record with
  | VObject kv => Return (VObject (assoc_set (lit "content") v kv))
  | VArray l => Return (VArray l)
  | _ => Throw TypeError
  end.

(** [x !== true]. *)
Definition is_not_true (v : value) : bool :=
  match v with
  | VBool true => false
  | _ => true
  end.

(** ** Calls to the provider *)

(** The arguments of one [fetch]: [call_body] is the value handed to
    [JSON.stringify]. *)
Record FetchCall := mkFetchCall {
  call_url : jsstring;
  call_method : option jsstring;
  call_headers : list (jsstring * jsstring);
  call_body : option value
}.

(** What the two awaits of a call give: [fetch] rejects, or
    [response.json()] rejects, or the parsed body. *)
Inductive fetched :=
| FetchRejected (stack : option jsstring)
| JsonRejected (stack : option jsstring)
| JsonBody (v : value).

(** The provider: its answer to a call, given the calls made before. *)
Variable provider : list FetchCall -> FetchCall -> fetched.

(** Code that may call the provider: it threads the log of calls
    issued so far and may throw. *)
Definition M (A : Type) : Type := list FetchCall -> outcome A * list FetchCall.

Definition ret {A : Type} (a : A) : M A := fun log => (Return a, log).
Definition throw {A : Type} (e : exn) : M A := fun log => (Throw e, log).
Definition lift {A : Type} (o : outcome A) : M A := fun log => (o, log).

Definition bind {A B : Type} (m : M A) (k : A -> M B) : M B :=
  fun log =>
    match m log with
    | (Return a, log') => k a log'
    | (Throw e, log') => (Throw e, log')
    end.

Notation "'let*' x ':=' m 'in' k" := (bind m (fun x => k))
  (at level 10, x pattern, m at level 100, k at level 200).

(** [var response = await fetch(url, init); var body = await response.json();] *)
Definition fetch_json (c : FetchCall) : M value :=
  fun log =>
    (match provider log c with
     | FetchRejected s => Throw (RuntimeError s)
     | JsonRejected s => Throw (RuntimeError s)
     | JsonBody v => Return v
     end, log ++ [c]).

(** ** The Cloudflare client *)

(** [new Cloudflare(options)]: [this.token] is only assigned when
    [options.token] is truthy, that is, a non-empty string. *)
Record Cloudflare := mkCloudflare {
  cloudflare_url : jsstring;
  token : option jsstring
}.

Definition new_Cloudflare (options_token : jsstring) : Cloudflare :=
  {| cloudflare_url := lit "https://api.cloudflare.com/client/v4";
     token := match options_token with
              | [] => None
              | _ => Some options_token
              end |}.

(** The [headers] of every call; an unassigned [this.token] prints as
    [undefined]. *)
Definition api_headers (this : Cloudflare) : list (jsstring * jsstring) :=
  [ (lit "Content-Type", lit "application/json");
    (lit "Authorization",
     lit "Bearer " ++ match token this with
                      | Some t => t
                      | None => lit "undefined"
                      end) ].

(** [body.success !== true || body.result.length === 0], evaluated
    left to right. *)
Definition lookup_failed (body : value) : outcome bool :=
  let! success := member body (lit "success") in
  if is_not_true success then Return true
  else
    let! result := member body (lit "result") in
    length_is_zero result.

(** [body.result[0]]. *)
Definition first_result (body : value) : outcome value :=
  let! result := member body (lit "result") in
  first_element result.

Definition zone_call (this : Cloudflare) (name : jsstring) : FetchCall :=
  {| call_url := lit "https://api.cloudflare.com/client/v4/zones?name=" ++ name;
     call_method := None;
     call_headers := api_headers this;
     call_body := None |}.

Definition findZone (this : Cloudflare) (name : jsstring) : M value :=
  let* body := fetch_json (zone_call this name) in
  let* failed := lift (lookup_failed body) in
  if (failed : bool) then
    throw (CloudflareApiException (lit "Failed to find zone '" ++ name ++ lit "'"))
  else lift (first_result body).

(** [zone_id] is the text of [zone.id] in the template literal. *)
Definition record_call (this : Cloudflare) (zone_id : jsstring)
  (name : option jsstring) : FetchCall :=
  {| call_url := lit "https://api.cloudflare.com/client/v4/zones/"
                   ++ zone_id ++ lit "/dns_records?name="
                   ++ nullable_to_string name;
     call_method := None;
     call_headers := api_headers this;
     call_body := None |}.

Definition findRecord (this : Cloudflare) (zone : value)
  (name : option jsstring) : M value :=
  let* zone_id := lift (member zone (lit "id")) in
  let* zone_id := lift (to_string zone_id) in
  let* body := fetch_json (record_call this zone_id name) in
  let* failed := lift (lookup_failed body) in
  if (failed : bool) then
    throw (CloudflareApiException
             (lit "Failed to find dns record '" ++ nullable_to_string name
                ++ lit "'"))
  else lift (first_result body).

(** [zone_id] and [id] are the texts of [record.zone_id] and
    [record.id] in the template literal. *)
Definition update_call (this : Cloudflare) (zone_id id : jsstring)
  (record : value) : FetchCall :=
  {| call_url := lit "https://api.cloudflare.com/client/v4/zones/"
                   ++ zone_id ++ lit "/dns_records/" ++ id;
     call_method := Some (lit "PUT");
     call_headers := api_headers this;
     call_body := Some record |}.

Definition updateRecord (this : Cloudflare) (record : value)
  (v : option jsstring) : M value :=
  let* record := lift (set_content record
                         (match v with Some s => VString s | None => VNull end)) in
  let* zone_id := lift (member record (lit "zone_id")) in
  let* zone_id := lift (to_string zone_id) in
  let* id := lift (member record (lit "id")) in
  let* id := lift (to_string id) in
  let* body := fetch_json (update_call this zone_id id record) in
  let* success := lift (member body (lit "success")) in
  if is_not_true success then
    throw (CloudflareApiException (lit "Failed to update dns record"))
  else lift (first_result body).

(** ** The update flow *)

Definition good : Response :=
  {| body := Some (lit "good");
     status := 200;
     statusText := TextAbsent;
     response_headers :=
       [ (lit "Content-Type", lit "text/plain;charset=UTF-8");
         (lit "Cache-Control", lit "no-store") ] |}.

Definition informAPI (ip : option jsstring) (u : URL) (name token : jsstring)
  : M Response :=
  let hostname := searchParams_get (lit "hostname") (searchParams u) in
  let cloudflare := new_Cloudflare token in
  let* zone := findZone cloudflare name in
  let* record := findRecord cloudflare zone hostname in
  let* result := updateRecord cloudflare record ip in
  ret good.

(** [verifyParameters]: [url.searchParams] is always an object, so only
    the second test can fire; [!x] holds of [null] and of the empty
    string. *)
Definition verifyParameters (u : URL) : outcome unit :=
  match searchParams_get (lit "hostname") (searchParams u) with
  | None | Some [] => Throw (BadRequestException (lit "You must specify a hostname"))
  | Some _ => Return tt
  end.

(** ** The credential parser *)

(** The destructured [encoded] of [Authorization.split(" ")], and
    [decoded]: [atob] is applied to the text of its argument, which is
    [undefined] when the header has no space. *)
Definition decoded_text (Authorization : jsstring) : outcome jsstring :=
  let encoded := split 32 Authorization !! 1%nat in
  match atob (match encoded with
              | Some e => e
              | None => lit "undefined"
              end) with
  | inl stack => Throw (RuntimeError stack)
  | inr binary =>
      let buffer := map (fun character => (character mod 256)%N) binary in
      Return (normalize (TextDecoder_decode buffer))
  end.

Definition basicAuthentication (request : Request) : outcome (jsstring * jsstring) :=
  match headers_get request (lit "Authorization") with
  | None => Throw TypeError
  | Some Authorization =>
      let! decoded := decoded_text Authorization in
      let index := indexOf 58 decoded in
      if (index =? -1) || has_control decoded then
        Throw (BadRequestException (lit "Invalid authorization value."))
      else
        Return (substring 0 index decoded, substring_from (index + 1) decoded)
  end.

(** ** The request handler *)

Definition handleRequest (request : Request) : M Response :=
  let protocol := protocol (url request) in
  let pathname := pathname (url request) in
  let reqip := headers_get request (lit "cf-connecting-ip") in
  if negb (str_eqb (lit "https:") protocol)
     || negb (bool_decide
                (headers_get request (lit "x-forwarded-proto") = Some (lit "https")))
  then throw (BadRequestException (lit "Please use a HTTPS connection."))
  else if str_eqb pathname (lit "/myip") then
    ret {| body := reqip; status := 200; statusText := TextAbsent;
           response_headers := [] |}
  else if str_eqb pathname (lit "/nic/update")
          || str_eqb pathname (lit "/update") then
    if headers_has request (lit "Authorization") then
      let* (username, password) := lift (basicAuthentication request) in
      let u := url request in
      let* _ := lift (verifyParameters u) in
      informAPI reqip u username password
    else throw (BadRequestException (lit "Please provide valid credentials."))
  else if str_eqb pathname (lit "/favicon.ico")
          || str_eqb pathname (lit "/robots.txt") then
    ret {| body := None; status := 204; statusText := TextAbsent;
           response_headers := [] |}
  else
    ret {| body := Some (lit "Not Found."); status := 404;
           statusText := TextAbsent; response_headers := [] |}.

(** ** The fetch listener *)

(** The [catch] handler: the response made of a thrown exception.
    [err.reason || err.stack || "Unknown Error"] skips [undefined] and
    the empty string; the statuses of the three classes are non-zero,
    hence truthy. *)
Definition error_message (err : exn) : jsstring :=
  match exn_reason err with
  | Some (c :: t) => c :: t
  | _ => match exn_stack err with
         | Some (c :: t) => c :: t
         | _ => lit "Unknown Error"
         end
  end.

Definition error_response (err : exn) : Response :=
  let message := error_message err in
  {| body := Some message;
     status := match exn_status err with
               | Some s => if s =? 0 then 500 else s
               | None => 500
               end;
     statusText := match exn_statusText err with
                   | Some (c :: t) => Text (c :: t)
                   | _ => TextNull
                   end;
     response_headers :=
       [ (lit "Content-Type", lit "text/plain;charset=UTF-8");
         (lit "Cache-Control", lit "no-store");
         (lit "Content-Length", decimal (length message)) ] |}.

(** [event.respondWith(handleRequest(event.request).catch(...))]: the
    response the listener gives, and the calls made on the way. *)
Definition respond (request : Request) : Response * list FetchCall :=
  match handleRequest request [] with
  | (Return r, log) => (r, log)
  | (Throw err, log) => (error_response err, log)
  end.

(** ** The requests of the update flow *)

(** Both indicators assert secure transport. *)
Definition secure (request : Request) : Prop :=
  protocol (url request) = lit "https:"
  /\ headers_get request (lit "x-forwarded-proto") = Some (lit "https").

Definition update_path (request : Request) : Prop :=
  pathname (url request) = lit "/nic/update"
  \/ pathname (url request) = lit "/update".

(** An update request: it arrives over secure transport on an update
    path, its credentials parse to [username] and [password], and its
    [hostname] parameter is present and not empty. *)
Definition update_request (request : Request)
  (username password hostname : jsstring) : Prop :=
  secure request
  /\ update_path request
  /\ basicAuthentication request = Return (username, password)
  /\ searchParams_get (lit "hostname") (searchParams (url request)) = Some hostname
  /\ hostname <> [].

End Worker.

Arguments value : clear implicits.
Arguments FetchCall : clear implicits.
Arguments fetched : clear implicits.
Arguments M : clear implicits.



(** ** A reference runtime

    Executable models of the platform functions, after the WHATWG
    Infra and Encoding standards, on which the handler can be run. *)
Module Reference.

(** Forgiving base64 decoding, as [atob] performs it. *)
Definition is_ascii_whitespace (c : N) : bool :=
  ((c =? 9) || (c =? 10) || (c =? 12) || (c =? 13) || (c =? 32))%N.

Definition base64_digit (c : N) : option N :=
  if ((65 <=? c) && (c <=? 90))%N then Some (c - 65)%N
  else if ((97 <=? c) && (c <=? 122))%N then Some (c - 71)%N
  else if ((48 <=? c) && (c <=? 57))%N then Some (c + 4)%N
  else if (c =? 43)%N then Some 62%N
  else if (c =? 47)%N then Some 63%N
  else None.

Fixpoint base64_digits (s : jsstring) : option (list N) :=
  match s with
  | [] => Some []
  | c :: s' =>
      match base64_digit c, base64_digits s' with
      | Some d, Some ds => Some (d :: ds)
      | _, _ => None
      end
  end.

(** Four digits give three bytes; a final group of three or two digits
    gives two or one, the spare bits being dropped. *)
Fixpoint base64_bytes (ds : list N) : list N :=
  match ds with
  | a :: b :: c :: d :: r =>
      [a * 4 + b / 16; (b mod 16) * 16 + c / 4; (c mod 4) * 64 + d]%N
        ++ base64_bytes r
  | [a; b; c] => [a * 4 + b / 16; (b mod 16) * 16 + c / 4]%N
  | [a; b] => [a * 4 + b / 16]%N
  | _ => []
  end.

(** Up to two [=] are removed from the end when the length is a
    multiple of four. *)
Definition strip_padding (s : jsstring) : jsstring :=
  if (length s mod 4 =? 0)%nat then
    match rev s with
    | 61%N :: 61%N :: r => rev r
    | 61%N :: r => rev r
    | _ => s
    end
  else s.

Definition forgiving_base64_decode (stack : option jsstring) (s : jsstring)
  : option jsstring + jsstring :=
  let data := strip_padding (filter (fun c => negb (is_ascii_whitespace c)) s) in
  if (length data mod 4 =? 1)%nat then inl stack
  else match base64_digits data with
       | Some ds => inr (base64_bytes ds)
       | None => inl stack
       end.

(** The UTF-8 decoder: a sequence in progress holds the code point so
    far, the bytes still needed and the range allowed for the next
    byte. An ill-formed sequence gives U+FFFD and the offending byte is
    read again as a lead byte. *)
Record utf8_state := mkUtf8 {
  code_point : N;
  needed : nat;
  lower : N;
  upper : N
}.

Definition utf8_lead (b : N) : N + utf8_state :=
  if (b <=? 127)%N then inl b
  else if ((194 <=? b) && (b <=? 223))%N then
    inr (mkUtf8 (b mod 32) 1 128 191)
  else if ((224 <=? b) && (b <=? 239))%N then
    inr (mkUtf8 (b mod 16) 2
           (if (b =? 224)%N then 160%N else 128%N)
           (if (b =? 237)%N then 159%N else 191%N))
  else if ((240 <=? b) && (b <=? 244))%N then
    inr (mkUtf8 (b mod 8) 3
           (if (b =? 240)%N then 144%N else 128%N)
           (if (b =? 244)%N then 143%N else 191%N))
  else inl 65533%N.

Fixpoint utf8_scalars (st : option utf8_state) (bytes : list N) : list N :=
  match bytes with
  | [] => match st with Some _ => [65533%N] | None => [] end
  | b :: rest =>
      let restart :=
        match utf8_lead b with
        | inl c => c :: utf8_scalars None rest
        | inr s => utf8_scalars (Some s) rest
        end in
      match st with
      | None => restart
      | Some s =>
          if ((lower s <=? b) && (b <=? upper s))%N then
            let cp := (code_point s * 64 + b mod 64)%N in
            match needed s with
            | S (S n) => utf8_scalars (Some (mkUtf8 cp (S n) 128 191)) rest
            | _ => cp :: utf8_scalars None rest
            end
          else 65533%N :: restart
      end
  end.

(** UTF-16 code units of a scalar value. *)
Definition utf16_of_scalar (c : N) : jsstring :=
  if (c <? 65536)%N then [c]
  else [55296 + (c - 65536) / 1024; 56320 + (c - 65536) mod 1024]%N.

(** [TextDecoder] drops a leading byte order mark. *)
Definition utf8_decode (bytes : list N) : jsstring :=
  let scalars := utf8_scalars None bytes in
  flat_map utf16_of_scalar
    (match scalars with
     | 65279%N :: r => r
     | _ => scalars
     end).

(** Numbers of the reference runtime: integers, printed in decimal. *)
Definition print_integer (z : Z) : jsstring :=
  if z <? 0 then lit "-" ++ decimal (Z.to_nat (- z)) else decimal (Z.to_nat z).

(** The reference runtime. Its numbers are the integers a provider uses
    for counts; its [normalize] is NFC on text whose code units are all
    below U+0300, which NFC leaves as it is; its errors carry no
    stack. *)
Definition runtime : Runtime Z :=
  {| number_is_zero := fun z => z =? 0;
     number_to_string := print_integer;
     atob := forgiving_base64_decode None;
     TextDecoder_decode := utf8_decode;
     normalize := fun s => s;
     TypeError_stack := None |}.

End Reference.

(** ** Sample requests and providers, on the reference runtime *)
Module Sample.

#[local] Existing Instance Reference.runtime.

Definition request_headers (l : list (jsstring * jsstring)) : gmap (list N) (list N) :=
  list_to_map l.

Definition https_headers : list (jsstring * jsstring) :=
  [ (lit "x-forwarded-proto", lit "https");
    (lit "cf-connecting-ip", lit "203.0.113.7") ].

(** [Basic base64("alice:p@ss:word")], to
    [https://ddns.example/update?hostname=home.example.com]. *)
Definition alice_update : Request :=
  {| url := {| protocol := lit "https:";
               pathname := lit "/update";
               searchParams := [(lit "hostname", lit "home.example.com")] |};
     headers := request_headers
                  ((lit "authorization", lit "Basic YWxpY2U6cEBzczp3b3Jk")
                     :: https_headers) |}.

(** The same request over plain HTTP. *)
Definition alice_plain : Request :=
  {| url := {| protocol := lit "http:";
               pathname := lit "/update";
               searchParams := [(lit "hostname", lit "home.example.com")] |};
     headers := request_headers
                  [ (lit "authorization", lit "Basic YWxpY2U6cEBzczp3b3Jk");
                    (lit "x-forwarded-proto", lit "http");
                    (lit "cf-connecting-ip", lit "203.0.113.7") ] |}.

(** The same request without the [hostname] parameter. *)
Definition alice_no_hostname : Request :=
  {| url := {| protocol := lit "https:";
               pathname := lit "/nic/update";
               searchParams := [(lit "myip", lit "198.51.100.1")] |};
     headers := request_headers
                  ((lit "authorization", lit "Basic YWxpY2U6cEBzczp3b3Jk")
                     :: https_headers) |}.

(** An update request without credentials. *)
Definition anonymous_update : Request :=
  {| url := {| protocol := lit "https:";
               pathname := lit "/update";
               searchParams := [(lit "hostname", lit "home.example.com")] |};
     headers := request_headers https_headers |}.

(** [Basic base64("alice")]: no colon in the decoded text. *)
Definition no_colon_update : Request :=
  {| url := {| protocol := lit "https:";
               pathname := lit "/update";
               searchParams := [(lit "hostname", lit "home.example.com")] |};
     headers := request_headers
                  ((lit "authorization", lit "Basic YWxpY2U=") :: https_headers) |}.


(** A host name with a letter outside ASCII,
    [?hostname=%C3%A9.example.com]. *)
Definition accented_update : Request :=
  {| url := {| protocol := lit "https:";
               pathname := lit "/update";
               searchParams := [(lit "hostname", 233%N :: lit ".example.com")] |};
     headers := request_headers
                  ((lit "authorization", lit "Basic YWxpY2U6cEBzczp3b3Jk")
                     :: https_headers) |}.

Definition json_object (success : bool) (result : value Z) : value Z :=
  VObject [ (lit "success", VBool success);
            (lit "errors", VArray []);
            (lit "messages", VArray []);
            (lit "result", result) ].

Definition sample_zone : value Z :=
  VObject [ (lit "id", VString (lit "023e105f4ecef8ad9ca31a8372d0c353"));
            (lit "name", VString (lit "alice")) ].

Definition sample_record : value Z :=
  VObject [ (lit "id", VString (lit "372e67954025e0ba6aaa6d586b9e0b59"));
            (lit "zone_id", VString (lit "023e105f4ecef8ad9ca31a8372d0c353"));
            (lit "name", VString (lit "home.example.com"));
            (lit "type", VString (lit "A"));
            (lit "content", VString (lit "198.51.100.4"));
            (lit "ttl", VNumber 1) ].

(** A provider that knows the zone and the record: its answers to the
    first, second and third call. *)
Definition provider_ok (log : list (FetchCall Z)) (c : FetchCall Z) : fetched Z :=
  match log with
  | [] => JsonBody (json_object true (VArray [sample_zone]))
  | [_] => JsonBody (json_object true (VArray [sample_record]))
  | _ => JsonBody (json_object true sample_record)
  end.

(** A provider that finds no zone of that name. *)
Definition provider_no_zone (log : list (FetchCall Z)) (c : FetchCall Z) : fetched Z :=
  JsonBody (json_object true (VArray [])).

(** A provider that knows the zone but no record of that name. *)
Definition provider_no_record (log : list (FetchCall Z)) (c : FetchCall Z) : fetched Z :=
  match log with
  | [] => JsonBody (json_object true (VArray [sample_zone]))
  | _ => JsonBody (json_object true (VArray []))
  end.

(** The record as [updateRecord] sends it back, and the three calls of
    a successful update of [alice_update]. *)
Definition updated_record : value Z :=
  VObject [ (lit "id", VString (lit "372e67954025e0ba6aaa6d586b9e0b59"));
            (lit "zone_id", VString (lit "023e105f4ecef8ad9ca31a8372d0c353"));
            (lit "name", VString (lit "home.example.com"));
            (lit "type", VString (lit "A"));
            (lit "content", VString (lit "203.0.113.7"));
            (lit "ttl", VNumber 1) ].

Definition alice_client : Cloudflare := new_Cloudflare (lit "p@ss:word").

Definition alice_calls : list (FetchCall Z) :=
  [ zone_call alice_client (lit "alice");
    record_call alice_client (lit "023e105f4ecef8ad9ca31a8372d0c353")
      (Some (lit "home.example.com"));
    update_call alice_client (lit "023e105f4ecef8ad9ca31a8372d0c353")
      (lit "372e67954025e0ba6aaa6d586b9e0b59") updated_record ].

End Sample.

(** ** Further sample requests and providers *)
Module MoreSamples.

#[local] Existing Instance Reference.runtime.

(** [GET https://ddns.example/myip]. *)
Definition myip_request : Request :=
  {| url := {| protocol := lit "https:";
               pathname := lit "/myip";
               searchParams := [] |};
     headers := Sample.request_headers Sample.https_headers |}.

(** [GET https://ddns.example/favicon.ico]. *)
Definition favicon_request : Request :=
  {| url := {| protocol := lit "https:";
               pathname := lit "/favicon.ico";
               searchParams := [] |};
     headers := Sample.request_headers Sample.https_headers |}.

(** A path the router does not know. *)
Definition unknown_request : Request :=
  {| url := {| protocol := lit "https:";
               pathname := lit "/admin";
               searchParams := [(lit "hostname", lit "home.example.com")] |};
     headers := Sample.request_headers
                  ((lit "authorization", lit "Basic YWxpY2U6cEBzczp3b3Jk")
                     :: Sample.https_headers) |}.

(** An [Authorization] value without a space. *)
Definition no_space_update : Request :=
  {| url := {| protocol := lit "https:";
               pathname := lit "/update";
               searchParams := [(lit "hostname", lit "home.example.com")] |};
     headers := Sample.request_headers
                  ((lit "authorization", lit "BasicYWxpY2U6cEBzczp3b3Jk")
                     :: Sample.https_headers) |}.

(** [Basic base64("alice:")]: an empty password. *)
Definition empty_password_update : Request :=
  {| url := {| protocol := lit "https:";
               pathname := lit "/update";
               searchParams := [(lit "hostname", lit "home.example.com")] |};
     headers := Sample.request_headers
                  ((lit "authorization", lit "Basic YWxpY2U6")
                     :: Sample.https_headers) |}.

Definition other_zone : value Z :=
  VObject [ (lit "id", VString (lit "9a7806061c88ada191ed06f989cc3dac"));
            (lit "name", VString (lit "alice")) ].

(** A provider that knows two zones of the name, the record, and
    accepts the update. *)
Definition provider_two_zones (log : list (FetchCall Z)) (c : FetchCall Z)
  : fetched Z :=
  match log with
  | [] => JsonBody (Sample.json_object true
                      (VArray [Sample.sample_zone; other_zone]))
  | [_] => JsonBody (Sample.json_object true (VArray [Sample.sample_record]))
  | _ => JsonBody (Sample.json_object true Sample.sample_record)
  end.

(** A provider that refuses the update. *)
Definition provider_update_refused (log : list (FetchCall Z)) (c : FetchCall Z)
  : fetched Z :=
  match log with
  | [] => JsonBody (Sample.json_object true (VArray [Sample.sample_zone]))
  | [_] => JsonBody (Sample.json_object true (VArray [Sample.sample_record]))
  | _ => JsonBody (Sample.json_object false VNull)
  end.

(** A provider whose zone answer has [success: true] and no [result]. *)
Definition provider_zone_without_result (log : list (FetchCall Z))
  (c : FetchCall Z) : fetched Z :=
  JsonBody (VObject [ (lit "success", VBool true) ]).

(** A provider that accepts the update and answers it without
    [result]. *)
Definition provider_update_without_result (log : list (FetchCall Z))
  (c : FetchCall Z) : fetched Z :=
  match log with
  | [] => JsonBody (Sample.json_object true (VArray [Sample.sample_zone]))
  | [_] => JsonBody (Sample.json_object true (VArray [Sample.sample_record]))
  | _ => JsonBody (VObject [ (lit "success", VBool true) ])
  end.

(** A zone whose [id] is the object [{"toString": 0}], and a provider
    that answers the zone lookup with it. *)
Definition unprintable_zone : value Z :=
  VObject [ (lit "id", VObject [ (lit "toString", VNumber 0) ]);
            (lit "name", VString (lit "alice")) ].

Definition provider_unprintable_zone (log : list (FetchCall Z))
  (c : FetchCall Z) : fetched Z :=
  JsonBody (Sample.json_object true (VArray [unprintable_zone])).

(** The members of an object. *)
Definition members_of (v : value Z) : list (jsstring * value Z) :=
  match v with
  | VObject members => members
  | _ => []
  end.

End MoreSamples.

(** Text within ASCII. *)
Definition ascii_text (s : jsstring) : Prop := Forall (fun c => (c < 128)%N) s.

(** The statuses the listener answers with. *)
Definition answered_statuses : list Z := [200; 204; 404; 400; 500].

(** * Properties *)

(** ** Strings *)

Lemma str_eqb_eq (s t : jsstring) : str_eqb s t = true <-> s = t.
Proof. unfold str_eqb. apply bool_decide_eq_true. Qed.

Lemma str_eqb_refl (s : jsstring) : str_eqb s s = true.
Proof. by apply str_eqb_eq. Qed.

Lemma str_eqb_neq (s t : jsstring) : s <> t -> str_eqb s t = false.
Proof. intros Hne. unfold str_eqb. by apply bool_decide_eq_false. Qed.

Lemma indexOf_absent (c : N) (s : jsstring) : c ∉ s -> indexOf c s = -1.
Proof.
  induction s as [|x s IH]; intros Hnot; [reflexivity|].
  apply not_elem_of_cons in Hnot as [Hne Hnot]. simpl.
  destruct (N.eqb_spec x c) as [->|_]; [done|].
  by rewrite (IH Hnot).
Qed.

Lemma indexOf_first (c : N) (before after : jsstring) :
  c ∉ before -> indexOf c (before ++ c :: after) = Z.of_nat (length before).
Proof.
  induction before as [|x before IH]; intros Hnot; simpl.
  - by rewrite N.eqb_refl.
  - apply not_elem_of_cons in Hnot as [Hne Hnot].
    destruct (N.eqb_spec x c) as [->|_]; [done|].
    rewrite (IH Hnot).
    destruct (Z.eqb_spec (Z.of_nat (length before)) (-1)); lia.
Qed.

Lemma substring_before (before rest : jsstring) :
  substring 0 (Z.of_nat (length before)) (before ++ rest) = before.
Proof.
  unfold substring. rewrite length_app.
  replace (Z.min (Z.max 0 0) _) with 0 by lia.
  replace (Z.min (Z.max (Z.of_nat (length before)) 0) _)
    with (Z.of_nat (length before)) by lia.
  replace (Z.min 0 _) with 0 by lia.
  replace (Z.max 0 _) with (Z.of_nat (length before)) by lia.
  rewrite Z.sub_0_r, Nat2Z.id. change (Z.to_nat 0) with 0%nat. rewrite drop_0. by rewrite take_app_length.
Qed.

Lemma substring_from_after (before : jsstring) (c : N) (after : jsstring) :
  substring_from (Z.of_nat (length before) + 1) (before ++ c :: after) = after.
Proof.
  unfold substring_from, substring. rewrite length_app. simpl length.
  set (n := Z.of_nat (length before + S (length after))).
  replace (Z.min (Z.max (Z.of_nat (length before) + 1) 0) n)
    with (Z.of_nat (length before) + 1) by lia.
  replace (Z.min (Z.max n 0) n) with n by lia.
  replace (Z.min (Z.of_nat (length before) + 1) n)
    with (Z.of_nat (S (length before))) by lia.
  replace (Z.max (Z.of_nat (length before) + 1) n) with n by lia.
  rewrite Nat2Z.id.
  replace (before ++ c :: after) with ((before ++ [c]) ++ after)
    by (by rewrite <- app_assoc).
  replace (S (length before)) with (length (before ++ [c]))
    by (rewrite length_app; simpl; lia).
  rewrite drop_app_length. apply take_ge. subst n. rewrite length_app. simpl. lia.
Qed.

Lemma has_control_true (s : jsstring) :
  has_control s = true <-> exists c, c ∈ s /\ ((c <= 31)%N \/ c = 127%N).
Proof.
  unfold has_control. rewrite existsb_exists. split.
  - intros (c & Hin & Hc). exists c. split; [by apply list_elem_of_In|].
    unfold is_control in Hc. apply orb_true_iff in Hc as [Hc|Hc].
    + left. by apply N.leb_le.
    + right. by apply N.eqb_eq.
  - intros (c & Hin & Hc). exists c. split; [by apply list_elem_of_In|].
    unfold is_control. apply orb_true_iff. destruct Hc as [Hc|Hc].
    + left. by apply N.leb_le.
    + right. by apply N.eqb_eq.
Qed.

Section Properties.

Context {number : Type} `{Runtime number}.
Variable provider : list (FetchCall number) -> FetchCall number -> fetched number.

(** ** The router *)

Lemma secure_check (request : Request) :
  secure request ->
  negb (str_eqb (lit "https:") (protocol (url request)))
  || negb (bool_decide
             (headers_get request (lit "x-forwarded-proto") = Some (lit "https")))
  = false.
Proof.
  intros [Hp Hx]. rewrite Hp, str_eqb_refl. simpl.
  by rewrite bool_decide_eq_true_2.
Qed.

Lemma insecure_check (request : Request) :
  protocol (url request) <> lit "https:"
  \/ headers_get request (lit "x-forwarded-proto") <> Some (lit "https") ->
  negb (str_eqb (lit "https:") (protocol (url request)))
  || negb (bool_decide
             (headers_get request (lit "x-forwarded-proto") = Some (lit "https")))
  = true.
Proof.
  intros [Hp|Hx]; apply orb_true_iff; [left|right].
  - rewrite str_eqb_neq; [done|congruence].
  - by rewrite bool_decide_eq_false_2.
Qed.

Lemma update_path_check (request : Request) :
  update_path request ->
  str_eqb (pathname (url request)) (lit "/myip") = false
  /\ str_eqb (pathname (url request)) (lit "/nic/update")
     || str_eqb (pathname (url request)) (lit "/update") = true.
Proof.
  intros [-> | ->]; split; solve [by vm_compute].
Qed.

Lemma headers_has_get (request : Request) (name : jsstring) :
  headers_has request name = true <-> is_Some (headers_get request name).
Proof. unfold headers_has, headers_get. apply bool_decide_eq_true. Qed.

Lemma basicAuthentication_header (request : Request) (c : jsstring * jsstring) :
  basicAuthentication request = Return c ->
  headers_has request (lit "Authorization") = true.
Proof.
  unfold basicAuthentication. intros Hc. apply headers_has_get.
  destruct (headers_get request (lit "Authorization")); [by eexists|done].
Qed.

(** On an update request the handler is the update flow. *)
Lemma handleRequest_update (request : Request) (username password hostname : jsstring) :
  update_request request username password hostname ->
  handleRequest provider request
  = informAPI provider (headers_get request (lit "cf-connecting-ip"))
      (url request) username password.
Proof.
  intros (Hsec & Hpath & Hauth & Hhost & Hne).
  unfold handleRequest.
  rewrite (secure_check _ Hsec).
  destruct (update_path_check _ Hpath) as [-> ->].
  rewrite (basicAuthentication_header _ _ Hauth), Hauth.
  unfold verifyParameters. rewrite Hhost.
  destruct hostname; [done|]. reflexivity.
Qed.

(** ** Transport security *)

(** C2. A request whose URL scheme is not [https:] or whose
    [x-forwarded-proto] header is not [https] is answered, whatever its
    path, by throwing a [BadRequestException] (status 400); nothing is
    returned for the path and the provider is not called. *)
Theorem insecure_request_rejected (request : Request) :
  protocol (url request) <> lit "https:"
  \/ headers_get request (lit "x-forwarded-proto") <> Some (lit "https") ->
  exists err,
    handleRequest provider request [] = (Throw err, [])
    /\ err = BadRequestException (lit "Please use a HTTPS connection.")
    /\ exn_status err = Some 400
    /\ status (error_response err) = 400.
Proof.
  intros Hinsecure. eexists. split; [|by repeat split].
  unfold handleRequest. by rewrite (insecure_check _ Hinsecure).
Qed.

(** ** Missing credentials *)

(** C7, as the code has it. A request over secure transport on
    [/nic/update] or [/update] without an [Authorization] header makes
    the handler throw a [BadRequestException], status 400, with the
    reason [Please provide valid credentials.]; the provider is not
    called. *)
Theorem missing_credentials_rejected (request : Request) :
  secure request ->
  update_path request ->
  headers_get request (lit "Authorization") = None ->
  exists err,
    handleRequest provider request [] = (Throw err, [])
    /\ err = BadRequestException (lit "Please provide valid credentials.")
    /\ exn_status err = Some 400
    /\ status (error_response err) = 400.
Proof.
  intros Hsec Hpath Hnone. eexists. split; [|by repeat split].
  unfold handleRequest. rewrite (secure_check _ Hsec).
  destruct (update_path_check _ Hpath) as [-> ->].
  assert (headers_has request (lit "Authorization") = false) as ->; [|done].
  unfold headers_has, headers_get in *. rewrite Hnone.
  apply bool_decide_eq_false. by intros [? ?].
Qed.

(** ** Parameter validation *)

(** C4. An update request (secure transport, an update path,
    credentials that parse) whose URL has no [hostname] parameter, or
    an empty one, makes the handler throw a [BadRequestException],
    status 400, with the reason [You must specify a hostname], before
    any call to the provider. *)
Theorem missing_hostname_rejected (request : Request) (username password : jsstring) :
  secure request ->
  update_path request ->
  headers_has request (lit "Authorization") = true ->
  basicAuthentication request = Return (username, password) ->
  searchParams_get (lit "hostname") (searchParams (url request)) = None
  \/ searchParams_get (lit "hostname") (searchParams (url request)) = Some [] ->
  exists err,
    handleRequest provider request [] = (Throw err, [])
    /\ err = BadRequestException (lit "You must specify a hostname")
    /\ exn_status err = Some 400
    /\ status (error_response err) = 400.
Proof.
  intros Hsec Hpath Hhas Hauth Hhost. eexists. split; [|by repeat split].
  unfold handleRequest. rewrite (secure_check _ Hsec).
  destruct (update_path_check _ Hpath) as [-> ->].
  rewrite Hhas, Hauth. unfold verifyParameters.
  by destruct Hhost as [-> | ->].
Qed.

(** ** The update flow *)

(** C1. On an update request for which [findZone], [findRecord] and
    [updateRecord] all return, the handler returns a response with
    status 200, body [good], content type [text/plain;charset=UTF-8]
    and [Cache-Control: no-store]. *)
Theorem successful_update_response (request : Request)
  (username password hostname : jsstring) (zone record result : value number)
  (log1 log2 log3 : list (FetchCall number)) :
  update_request request username password hostname ->
  findZone provider (new_Cloudflare password) username [] = (Return zone, log1) ->
  findRecord provider (new_Cloudflare password) zone (Some hostname) log1
  = (Return record, log2) ->
  updateRecord provider (new_Cloudflare password) record
    (headers_get request (lit "cf-connecting-ip")) log2
  = (Return result, log3) ->
  exists response,
    handleRequest provider request [] = (Return response, log3)
    /\ respond provider request = (response, log3)
    /\ status response = 200
    /\ body response = Some (lit "good")
    /\ response_header (lit "Content-Type") response
       = Some (lit "text/plain;charset=UTF-8")
    /\ response_header (lit "Cache-Control") response = Some (lit "no-store").
Proof.
  intros Hreq Hzone Hrecord Hupdate.
  assert (handleRequest provider request [] = (Return good, log3)) as Hrun.
  { rewrite (handleRequest_update _ _ _ _ Hreq).
    destruct Hreq as (_ & _ & _ & Hhost & _).
    unfold informAPI, bind. rewrite Hhost, Hzone, Hrecord, Hupdate.
    reflexivity. }
  exists good. split; [exact Hrun|].
  split; [unfold respond; by rewrite Hrun|].
  by repeat split.
Qed.

(** C3. On an update request whose zone lookup is answered by an
    object that does not have [success: true], or that has an empty
    [result] list, the handler throws a [CloudflareApiException] with
    the reason [Failed to find zone '<name>'], and the zone lookup is
    the only call made to the provider. *)
Theorem zone_lookup_failure_stops (request : Request)
  (username password hostname : jsstring) (members : list (jsstring * value number)) :
  update_request request username password hostname ->
  provider [] (zone_call (new_Cloudflare password) username)
  = JsonBody (VObject members) ->
  assoc (lit "success") members <> Some (VBool true)
  \/ assoc (lit "result") members = Some (VArray []) ->
  handleRequest provider request []
  = (Throw (CloudflareApiException
              (lit "Failed to find zone '" ++ username ++ lit "'")),
     [zone_call (new_Cloudflare password) username]).
Proof.
  intros Hreq Hanswer Hfailed.
  rewrite (handleRequest_update _ _ _ _ Hreq).
  unfold informAPI, bind, findZone, bind, fetch_json, lift, throw.
  rewrite Hanswer. simpl app.
  assert (lookup_failed (VObject members) = Return true) as ->; [|done].
  unfold lookup_failed, member, bind_outcome.
  destruct (assoc (lit "success") members) as [[| |[|]| | | |]|] eqn:Hs;
    simpl; try reflexivity.
  destruct Hfailed as [Hfailed | ->]; [done|reflexivity].
Qed.

(** ** Credentials *)

(** C5. When the decoded text of the [Authorization] header contains a
    colon and no ASCII control character, the parser returns as
    username the text before the first colon and as password all the
    text after it, later colons included. *)
Theorem credentials_split_at_first_colon (request : Request)
  (Authorization decoded : jsstring) :
  headers_get request (lit "Authorization") = Some Authorization ->
  decoded_text Authorization = Return decoded ->
  58%N ∈ decoded ->
  Forall (fun c => (31 < c)%N /\ c <> 127%N) decoded ->
  exists username password,
    basicAuthentication request = Return (username, password)
    /\ decoded = username ++ 58%N :: password
    /\ 58%N ∉ username.
Proof.
  intros Hheader Hdecoded Hcolon Hclean.
  destruct (list_elem_of_split_l _ _ Hcolon) as (username & password & -> & Hfirst).
  exists username, password. split; [|done].
  unfold basicAuthentication. rewrite Hheader, Hdecoded. simpl bind_outcome.
  rewrite (indexOf_first _ _ _ Hfirst).
  destruct (Z.eqb_spec (Z.of_nat (length username)) (-1)) as [Hneg|_]; [lia|].
  destruct (has_control (username ++ 58%N :: password)) eqn:Hctl.
  - apply has_control_true in Hctl as (c & Hin & Hc).
    destruct (proj1 (Forall_forall _ _) Hclean c Hin) as [Hlow Hdel]. lia.
  - simpl. by rewrite substring_before, substring_from_after.
Qed.

(** C6, as the code has it. When the decoded text of the
    [Authorization] header contains an ASCII control character
    (0x00-0x1F or 0x7F) anywhere, or contains no colon, the parser
    throws a [BadRequestException], status 400, with the reason
    [Invalid authorization value.] (the full stop included). *)
Theorem malformed_credentials_rejected (request : Request)
  (Authorization decoded : jsstring) :
  headers_get request (lit "Authorization") = Some Authorization ->
  decoded_text Authorization = Return decoded ->
  (exists c, c ∈ decoded /\ ((c <= 31)%N \/ c = 127%N)) \/ 58%N ∉ decoded ->
  exists err,
    basicAuthentication request = Throw err
    /\ err = BadRequestException (lit "Invalid authorization value.")
    /\ exn_status err = Some 400
    /\ status (error_response err) = 400.
Proof.
  intros Hheader Hdecoded Hbad. eexists. split; [|by repeat split].
  unfold basicAuthentication. rewrite Hheader, Hdecoded. simpl bind_outcome.
  destruct Hbad as [Hctl | Hcolon].
  - apply has_control_true in Hctl. rewrite Hctl. by rewrite orb_true_r.
  - by rewrite (indexOf_absent _ _ Hcolon).
Qed.

(** ** The calls of the client *)

Lemma findZone_log (this : Cloudflare) (name : jsstring) (log : list (FetchCall number)) :
  snd (findZone provider this name log) = log ++ [zone_call this name].
Proof.
  unfold findZone, bind, fetch_json, lift, throw.
  destruct (provider log (zone_call this name)); try reflexivity.
  destruct (lookup_failed v) as [[|]|]; reflexivity.
Qed.

Lemma findRecord_log (this : Cloudflare) (zone : value number) (name : option jsstring)
  (log : list (FetchCall number)) :
  snd (findRecord provider this zone name log) = log
  \/ exists zone_id,
       snd (findRecord provider this zone name log)
       = log ++ [record_call this zone_id name].
Proof.
  unfold findRecord, bind, fetch_json, lift, throw.
  destruct (member zone (lit "id")) as [id|]; [|by left].
  destruct (to_string id) as [zone_id|]; [right; exists zone_id|by left].
  destruct (provider log (record_call this zone_id name)); try reflexivity.
  destruct (lookup_failed v) as [[|]|]; reflexivity.
Qed.

Lemma findRecord_returned_log (this : Cloudflare) (zone : value number)
  (name : option jsstring) (log log' : list (FetchCall number)) (record : value number) :
  findRecord provider this zone name log = (Return record, log') ->
  exists zone_id, log' = log ++ [record_call this zone_id name].
Proof.
  unfold findRecord, bind, fetch_json, lift, throw.
  destruct (member zone (lit "id")) as [id|]; [|done].
  destruct (to_string id) as [zone_id|]; [|done].
  intros Hrun. exists zone_id.
  destruct (provider log (record_call this zone_id name)); try done.
  destruct (lookup_failed v) as [[|]|]; congruence.
Qed.

Lemma updateRecord_log (this : Cloudflare) (record : value number) (v : option jsstring)
  (log : list (FetchCall number)) :
  snd (updateRecord provider this record v log) = log
  \/ exists zone_id id record',
       snd (updateRecord provider this record v log)
       = log ++ [update_call this zone_id id record'].
Proof.
  unfold updateRecord, bind, fetch_json, lift, throw.
  destruct (set_content record _) as [record'|]; [|by left].
  destruct (member record' (lit "zone_id")) as [z|]; [|by left].
  destruct (to_string z) as [zone_id|]; [|by left].
  destruct (member record' (lit "id")) as [i|]; [|by left].
  destruct (to_string i) as [id|]; [|by left].
  right. exists zone_id, id, record'.
  destruct (provider log (update_call this zone_id id record')); try reflexivity.
  destruct (member v0 (lit "success")) as [success|]; [|reflexivity].
  destruct (is_not_true success); reflexivity.
Qed.

(** The calls of the update flow, in order: the zone lookup, then
    possibly the record lookup, then possibly the update. *)
Lemma informAPI_log (ip : option jsstring) (u : URL) (name token : jsstring)
  (log : list (FetchCall number)) :
  let cf := new_Cloudflare token in
  let hostname := searchParams_get (lit "hostname") (searchParams u) in
  snd (informAPI provider ip u name token []) = log ->
  log = [zone_call cf name]
  \/ (exists zone_id, log = [zone_call cf name; record_call cf zone_id hostname])
  \/ (exists zone_id zone_id' id record,
        log = [zone_call cf name; record_call cf zone_id hostname;
               update_call cf zone_id' id record]).
Proof.
  intros cf hostname. unfold informAPI. fold cf. fold hostname. unfold bind at 1.
  pose proof (findZone_log cf name []) as Hz.
  destruct (findZone provider cf name []) as [[zone|e] log1]; simpl in Hz; subst log1;
    [|intros <-; by left].
  unfold bind at 1.
  pose proof (findRecord_log cf zone hostname [zone_call cf name]) as Hr.
  pose proof (findRecord_returned_log cf zone hostname [zone_call cf name]) as Hr'.
  destruct (findRecord provider cf zone hostname [zone_call cf name])
    as [[record|e] log2]; simpl in Hr.
  - destruct (Hr' _ _ eq_refl) as [zone_id ->]. clear Hr Hr'.
    unfold bind, ret.
    pose proof (updateRecord_log cf record ip
                  ([zone_call cf name] ++ [record_call cf zone_id hostname])) as Hu.
    destruct (updateRecord provider cf record ip _) as [[result|e] log3];
      simpl in Hu; simpl; intros <-;
      destruct Hu as [->|(zone_id' & id & record' & ->)]; simpl; eauto 10.
  - simpl. intros <-. destruct Hr as [->|[zone_id ->]]; eauto.
Qed.

(** The calls of the client, exactly: the record lookup is issued when
    [zone.id] can be read and printed; the update is issued when
    [content] can be assigned and [record.zone_id] and [record.id] can
    be read and printed. *)
Lemma findRecord_run (this : Cloudflare) (zone : value number)
  (name : option jsstring) (log : list (FetchCall number)) :
  match (let! id := member zone (lit "id") in to_string id) with
  | Return zone_id =>
      snd (findRecord provider this zone name log)
      = log ++ [record_call this zone_id name]
  | Throw e => findRecord provider this zone name log = (Throw e, log)
  end.
Proof.
  unfold findRecord, bind, fetch_json, lift, throw, bind_outcome.
  destruct (member zone (lit "id")) as [id|]; [|reflexivity].
  destruct (to_string id) as [zone_id|]; [|reflexivity].
  destruct (provider log (record_call this zone_id name)); try reflexivity.
  destruct (lookup_failed v) as [[|]|]; reflexivity.
Qed.

Lemma updateRecord_calls (this : Cloudflare) (record : value number)
  (v : option jsstring) (log : list (FetchCall number)) :
  snd (updateRecord provider this record v log)
  = match (let! record' :=
             set_content record
               (match v with Some s => VString s | None => VNull end) in
           let! z := member record' (lit "zone_id") in
           let! zone_id := to_string z in
           let! i := member record' (lit "id") in
           let! id := to_string i in
           Return (update_call this zone_id id record')) with
    | Return c => log ++ [c]
    | Throw _ => log
    end.
Proof.
  unfold updateRecord, bind, fetch_json, lift, throw, bind_outcome.
  destruct (set_content record _) as [record'|]; [|reflexivity].
  destruct (member record' (lit "zone_id")) as [z|]; [|reflexivity].
  destruct (to_string z) as [zone_id|]; [|reflexivity].
  destruct (member record' (lit "id")) as [i|]; [|reflexivity].
  destruct (to_string i) as [id|]; [|reflexivity].
  destruct (provider log (update_call this zone_id id record')); try reflexivity.
  destruct (member v0 (lit "success")) as [success|]; [|reflexivity].
  destruct (is_not_true success); reflexivity.
Qed.

Lemma informAPI_calls (ip : option jsstring) (u : URL) (name token : jsstring) :
  let cf := new_Cloudflare token in
  let hostname := searchParams_get (lit "hostname") (searchParams u) in
  snd (informAPI provider ip u name token [])
  = match fst (findZone provider cf name []) with
    | Throw _ => [zone_call cf name]
    | Return zone =>
        match findRecord provider cf zone hostname [zone_call cf name] with
        | (Throw _, log2) => log2
        | (Return record, log2) => snd (updateRecord provider cf record ip log2)
        end
    end.
Proof.
  intros cf hostname. unfold informAPI. fold cf. fold hostname. unfold bind at 1.
  pose proof (findZone_log cf name []) as Hz.
  destruct (findZone provider cf name []) as [[zone|e] log1]; simpl in Hz; subst log1;
    [|reflexivity].
  simpl fst. unfold bind at 1.
  destruct (findRecord provider cf zone hostname _) as [[record|e] log2];
    [|reflexivity].
  unfold bind, ret.
  by destruct (updateRecord provider cf record ip log2) as [[result|e] log3].
Qed.

(** Settles which call, if any, stands at a position of a given log. *)
Ltac call_at_position :=
  let Hc := fresh "Hc" in
  split;
  [ intros Hc; simpl in Hc;
    first [ discriminate Hc
          | injection Hc as <-; repeat eexists; eauto;
            match goal with
            | Hrun : ?run = (_, _) |- fst ?run = _ => by rewrite Hrun
            end ]
  | intros;
    repeat match goal with
      | Hex : exists _, _ |- _ => destruct Hex
      | Hand : _ /\ _ |- _ => destruct Hand
      end;
    simpl in *; simplify_eq;
    repeat match goal with
      | Hrun : ?run = (_, _), Hfst : context [fst ?run] |- _ =>
          rewrite Hrun in Hfst
      end;
    simpl in *; simplify_eq; congruence ].

Ltac settle_calls :=
  let c := fresh "c" in
  simpl;
  split; [intros c; call_at_position|];
  split; [intros c; call_at_position|simpl; lia].

(** The calls of an update request, position by position. *)
Lemma update_request_calls (request : Request)
  (username password hostname : jsstring) :
  update_request request username password hostname ->
  let cf := new_Cloudflare password in
  let address :=
    match headers_get request (lit "cf-connecting-ip") with
    | Some s => VString s
    | None => VNull
    end in
  let log := snd (handleRequest provider request []) in
  log !! 0%nat = Some (zone_call cf username)
  /\ (forall c, log !! 1%nat = Some c <->
        exists zone id zone_id,
          fst (findZone provider cf username []) = Return zone
          /\ member zone (lit "id") = Return id
          /\ to_string id = Return zone_id
          /\ c = record_call cf zone_id (Some hostname))
  /\ (forall c, log !! 2%nat = Some c <->
        exists zone record record' z zone_id i id,
          fst (findZone provider cf username []) = Return zone
          /\ fst (findRecord provider cf zone (Some hostname)
                    [zone_call cf username]) = Return record
          /\ set_content record address = Return record'
          /\ member record' (lit "zone_id") = Return z
          /\ to_string z = Return zone_id
          /\ member record' (lit "id") = Return i
          /\ to_string i = Return id
          /\ c = update_call cf zone_id id record')
  /\ (length log <= 3)%nat.
Proof.
  intros Hreq cf address log.
  assert (exists rest, log = zone_call cf username :: rest) as Hfirst.
  { subst log. rewrite (handleRequest_update _ _ _ _ Hreq).
    pose proof (informAPI_log (headers_get request (lit "cf-connecting-ip"))
                  (url request) username password _ eq_refl) as Hlog.
    simpl in Hlog. fold cf in Hlog.
    destruct Hlog as [->|[[zone_id ->]|(zone_id & zone_id' & id & record & ->)]];
      by eexists. }
  assert (log
          = match fst (findZone provider cf username []) with
            | Throw _ => [zone_call cf username]
            | Return zone =>
                match findRecord provider cf zone (Some hostname)
                        [zone_call cf username] with
                | (Throw _, log2) => log2
                | (Return record, log2) =>
                    snd (updateRecord provider cf record
                           (headers_get request (lit "cf-connecting-ip")) log2)
                end
            end) as Hlog.
  { subst log. rewrite (handleRequest_update _ _ _ _ Hreq).
    destruct Hreq as (_ & _ & _ & Hhost & _).
    rewrite informAPI_calls. by rewrite Hhost. }
  split.
  { destruct Hfirst as [rest ->]. reflexivity. }
  clear Hfirst. rewrite Hlog. clear Hlog log.
  set (zc := zone_call cf username).
  destruct (findZone provider cf username []) as [[zone|e] log1]; simpl fst;
    [|settle_calls].
  pose proof (findRecord_run cf zone (Some hostname) [zc]) as Hrecord.
  unfold bind_outcome in Hrecord.
  destruct (member zone (lit "id")) as [id|e1] eqn:Hid;
    [|rewrite Hrecord; settle_calls].
  destruct (to_string id) as [zone_id|e2] eqn:Htext;
    [|rewrite Hrecord; settle_calls].
  destruct (findRecord provider cf zone (Some hostname) [zc])
    as [[record|e3] log2] eqn:Hrun; simpl in Hrecord; subst log2; simpl fst;
    [|settle_calls].
  rewrite updateRecord_calls. unfold bind_outcome. fold address.
  destruct (set_content record address) as [record'|e4] eqn:Hset; [|settle_calls].
  destruct (member record' (lit "zone_id")) as [z|e5] eqn:Hz; [|settle_calls].
  destruct (to_string z) as [zt|e6] eqn:Hzt; [|settle_calls].
  destruct (member record' (lit "id")) as [i|e7] eqn:Hi; [|settle_calls].
  destruct (to_string i) as [it|e8] eqn:Hit; settle_calls.
Qed.

(** C10. On an update request the first call to the provider is the
    zone lookup for the Basic-auth username: its URL ends in
    [zones?name=<username>] and is the same whatever the [hostname]
    parameter. The second call is made exactly when the zone lookup
    returns a zone whose [id] can be read and printed, and is then the
    record lookup within that zone for the [hostname] parameter,
    [zones/<zone.id>/dns_records?name=<hostname>]. The third call is
    made exactly when that lookup returns a record whose [content] can
    be assigned and whose [zone_id] and [id] can be read and printed,
    and is then the [PUT] built from that record and the requester's
    address alone: a request with another [hostname] for which the
    record lookups have the same outcome makes the same [PUT]. *)
Theorem zone_lookup_keyed_by_username (request : Request)
  (username password hostname : jsstring) :
  update_request request username password hostname ->
  let cf := new_Cloudflare password in
  let address :=
    match headers_get request (lit "cf-connecting-ip") with
    | Some s => VString s
    | None => VNull
    end in
  let log := snd (handleRequest provider request []) in
  log !! 0%nat = Some (zone_call cf username)
  /\ call_url (zone_call cf username : FetchCall number)
     = lit "https://api.cloudflare.com/client/v4/zones?name=" ++ username
  /\ (forall request' hostname',
        update_request request' username password hostname' ->
        snd (handleRequest provider request' []) !! 0%nat = log !! 0%nat)
  /\ (forall c, log !! 1%nat = Some c <->
        exists zone id zone_id,
          fst (findZone provider cf username []) = Return zone
          /\ member zone (lit "id") = Return id
          /\ to_string id = Return zone_id
          /\ c = record_call cf zone_id (Some hostname))
  /\ (forall zone_id,
        call_url (record_call cf zone_id (Some hostname) : FetchCall number)
        = lit "https://api.cloudflare.com/client/v4/zones/"
            ++ zone_id ++ lit "/dns_records?name=" ++ hostname)
  /\ (forall c, log !! 2%nat = Some c <->
        exists zone record record' z zone_id i id,
          fst (findZone provider cf username []) = Return zone
          /\ fst (findRecord provider cf zone (Some hostname)
                    [zone_call cf username]) = Return record
          /\ set_content record address = Return record'
          /\ member record' (lit "zone_id") = Return z
          /\ to_string z = Return zone_id
          /\ member record' (lit "id") = Return i
          /\ to_string i = Return id
          /\ c = update_call cf zone_id id record')
  /\ (forall request' hostname',
        update_request request' username password hostname' ->
        headers_get request' (lit "cf-connecting-ip")
        = headers_get request (lit "cf-connecting-ip") ->
        (forall zone,
            fst (findRecord provider cf zone (Some hostname')
                   [zone_call cf username])
            = fst (findRecord provider cf zone (Some hostname)
                     [zone_call cf username])) ->
        snd (handleRequest provider request' []) !! 2%nat = log !! 2%nat)
  /\ (length log <= 3)%nat.
Proof.
  intros Hreq cf address log.
  destruct (update_request_calls _ _ _ _ Hreq)
    as (Hfirst & Hsecond & Hthird & Hlength).
  fold cf in Hfirst, Hsecond, Hthird. fold address in Hthird.
  fold log in Hfirst, Hsecond, Hthird, Hlength.
  split; [exact Hfirst|]. split; [reflexivity|]. split.
  { intros request' hostname' Hreq'.
    destruct (update_request_calls _ _ _ _ Hreq') as (Hfirst' & _).
    fold cf in Hfirst'. by rewrite Hfirst', Hfirst. }
  split; [exact Hsecond|]. split; [reflexivity|]. split; [exact Hthird|].
  split; [|exact Hlength].
  intros request' hostname' Hreq' Haddress Hsame.
  destruct (update_request_calls _ _ _ _ Hreq') as (_ & _ & Hthird' & _).
  fold cf in Hthird'. rewrite Haddress in Hthird'. fold address in Hthird'.
  apply option_eq. intros c. rewrite Hthird', Hthird.
  split; intros (zone & record & record' & z & zone_id & i & id & Hz & Hr & Hrest);
    exists zone, record, record', z, zone_id, i, id;
    (split; [exact Hz|]); (split; [|exact Hrest]);
    [by rewrite <- Hsame|by rewrite Hsame].
Qed.

(** ** Reasons *)








(** The conversion of a value to text fails only with a [TypeError]. *)
Lemma to_string_throws_TypeError (v : value number) (e : exn) :
  to_string v = Throw e -> e = TypeError.
Proof.
  remember (array_depth v) as n eqn:Hn.
  assert (array_depth v <= n)%nat as Hdepth by lia. clear Hn.
  revert v e Hdepth.
  induction n as [|n IH]; intros v e Hdepth;
    destruct v as [| |[|]|k|s|l|members]; simpl; try discriminate;
    try (destruct (assoc (lit "toString") members); [|discriminate];
         intros Hv; injection Hv as <-; reflexivity);
    simpl in Hdepth; [lia|].
  assert (Forall (fun x => array_depth x <= n)%nat l) as Hl.
  { assert (list_max (map array_depth l) <= n)%nat as Hmax by lia.
    apply list_max_le in Hmax. by apply Forall_map in Hmax. }
  clear Hdepth. unfold bind_outcome. intros Hv.
  assert (all_results
            (map (fun x => match x with
                           | VUndefined | VNull => Return []
                           | _ => to_string x
                           end) l) = Throw e) as Hall.
  { destruct (all_results _); [discriminate Hv|]. by injection Hv as ->. }
  clear Hv. revert e Hall.
  induction Hl as [|x l Hx Hl IHl]; intros e Hall; simpl in Hall;
    [discriminate Hall|].
  unfold bind_outcome in Hall.
  destruct (match x with
            | VUndefined | VNull => Return []
            | _ => to_string x
            end) as [part|e'] eqn:Hpart.
  - destruct (all_results _) as [rest|e''] eqn:Hrest; [discriminate Hall|].
    injection Hall as <-. by apply IHl.
  - injection Hall as <-.
    destruct x; try discriminate Hpart; by apply (IH _ _ Hx).
Qed.









(** ** The error response *)

(** The response the [catch] handler makes of one of the script's
    exceptions: its status, status text and reason, with caching
    disabled; [Content-Length] is the number of code units of the
    reason. *)
Lemma error_response_of_exception (e : exn) (c : N) (reason : jsstring) :
  e = UnauthorizedException (c :: reason)
  \/ e = BadRequestException (c :: reason)
  \/ e = CloudflareApiException (c :: reason) ->
  let r := error_response e in
  Some (status r) = exn_status e
  /\ (exists text, statusText r = Text text /\ exn_statusText e = Some text)
  /\ body r = Some (c :: reason)
  /\ response_header (lit "Content-Type") r = Some (lit "text/plain;charset=UTF-8")
  /\ response_header (lit "Cache-Control") r = Some (lit "no-store")
  /\ response_header (lit "Content-Length") r = Some (decimal (length (c :: reason))).
Proof.
  intros [-> | [-> | ->]]; repeat split; try (by vm_compute); by eexists.
Qed.

(** A runtime error has no status and no reason: the response is a
    500 whose body is the stack, or [Unknown Error] without one. *)
Lemma error_response_of_runtime_error (stack : option jsstring) :
  let r := error_response (RuntimeError stack) in
  status r = 500
  /\ statusText r = TextNull
  /\ body r = Some (match stack with
                    | Some (c :: t) => c :: t
                    | _ => lit "Unknown Error"
                    end)
  /\ response_header (lit "Cache-Control") r = Some (lit "no-store").
Proof. by repeat split. Qed.

(** [utf8_encode] gives one byte per code unit on ASCII text, so there
    [Content-Length] is the length of the body in bytes. *)
Lemma utf8_encode_ascii (s : jsstring) :
  Forall (fun c => (c < 128)%N) s -> length (utf8_encode s) = length s.
Proof.
  induction 1 as [|c s Hc _ IH]; [done|].
  simpl utf8_encode.
  assert (is_high_surrogate c = false) as ->.
  { unfold is_high_surrogate. apply andb_false_iff. left. apply N.leb_gt. lia. }
  assert (is_low_surrogate c = false) as ->.
  { unfold is_low_surrogate. apply andb_false_iff. left. apply N.leb_gt. lia. }
  unfold utf8_of_scalar. apply N.ltb_lt in Hc as ->. simpl. by rewrite IH.
Qed.

End Properties.

(** * The properties on the sample requests *)

Section Samples.

#[local] Existing Instance Reference.runtime.

(** Decides that a given text has no colon. *)
Ltac no_colon :=
  let Hin := fresh "Hin" in
  intros Hin; apply list_elem_of_In in Hin; vm_compute in Hin;
  intuition discriminate.

Lemma alice_update_is_update_request :
  update_request Sample.alice_update
    (lit "alice") (lit "p@ss:word") (lit "home.example.com").
Proof. repeat split; try (right; reflexivity); by vm_compute. Defined.

(** The example of the specification:
    [Basic base64("alice:p@ss:word")]. *)
Example alice_credentials :
  basicAuthentication Sample.alice_update
  = Return (lit "alice", lit "p@ss:word").
Proof. by vm_compute. Qed.

Lemma successful_update_response_witness :
  exists response,
    handleRequest Sample.provider_ok Sample.alice_update []
    = (Return response, Sample.alice_calls)
    /\ respond Sample.provider_ok Sample.alice_update
       = (response, Sample.alice_calls)
    /\ status response = 200
    /\ body response = Some (lit "good")
    /\ response_header (lit "Content-Type") response
       = Some (lit "text/plain;charset=UTF-8")
    /\ response_header (lit "Cache-Control") response = Some (lit "no-store").
Proof.
  apply (successful_update_response Sample.provider_ok Sample.alice_update
           (lit "alice") (lit "p@ss:word") (lit "home.example.com")
           Sample.sample_zone Sample.sample_record VUndefined
           [zone_call Sample.alice_client (lit "alice")]
           (take 2 Sample.alice_calls) Sample.alice_calls).
  - exact alice_update_is_update_request.
  - by vm_compute.
  - by vm_compute.
  - by vm_compute.
Defined.

Lemma insecure_request_rejected_witness :
  protocol (url Sample.alice_plain) <> lit "https:"
  /\ exists err,
       handleRequest Sample.provider_ok Sample.alice_plain [] = (Throw err, [])
       /\ err = BadRequestException (lit "Please use a HTTPS connection.")
       /\ exn_status err = Some 400
       /\ status (error_response err) = 400.
Proof.
  split; [by vm_compute|].
  apply (insecure_request_rejected Sample.provider_ok Sample.alice_plain).
  left. by vm_compute.
Defined.

Lemma missing_credentials_rejected_witness :
  headers_get Sample.anonymous_update (lit "Authorization") = None
  /\ exists err,
       handleRequest Sample.provider_ok Sample.anonymous_update [] = (Throw err, [])
       /\ err = BadRequestException (lit "Please provide valid credentials.")
       /\ exn_status err = Some 400
       /\ status (error_response err) = 400.
Proof.
  split; [by vm_compute|].
  apply (missing_credentials_rejected Sample.provider_ok Sample.anonymous_update).
  - split; by vm_compute.
  - right. reflexivity.
  - by vm_compute.
Defined.

(** C7 as stated fails: the reason of the exception is not
    [missing credentials]. *)
Lemma missing_credentials_reason_differs :
  secure Sample.anonymous_update
  /\ update_path Sample.anonymous_update
  /\ headers_get Sample.anonymous_update (lit "Authorization") = None
  /\ handleRequest Sample.provider_ok Sample.anonymous_update []
     <> (Throw (BadRequestException (lit "missing credentials")), []).
Proof.
  split; [split; by vm_compute|].
  split; [right; reflexivity|].
  split; [by vm_compute|].
  intros Hrun. vm_compute in Hrun. discriminate.
Qed.

Lemma missing_hostname_rejected_witness :
  searchParams_get (lit "hostname") (searchParams (url Sample.alice_no_hostname))
  = None
  /\ exists err,
       handleRequest Sample.provider_ok Sample.alice_no_hostname [] = (Throw err, [])
       /\ err = BadRequestException (lit "You must specify a hostname")
       /\ exn_status err = Some 400
       /\ status (error_response err) = 400.
Proof.
  split; [by vm_compute|].
  apply (missing_hostname_rejected Sample.provider_ok Sample.alice_no_hostname
           (lit "alice") (lit "p@ss:word")).
  - split; by vm_compute.
  - left. reflexivity.
  - by vm_compute.
  - by vm_compute.
  - left. by vm_compute.
Defined.

Lemma zone_lookup_failure_stops_witness :
  handleRequest Sample.provider_no_zone Sample.alice_update []
  = (Throw (CloudflareApiException
              (lit "Failed to find zone '" ++ lit "alice" ++ lit "'")),
     [zone_call (new_Cloudflare (lit "p@ss:word")) (lit "alice")]).
Proof.
  apply (zone_lookup_failure_stops Sample.provider_no_zone Sample.alice_update
           (lit "alice") (lit "p@ss:word") (lit "home.example.com")
           [ (lit "success", VBool true); (lit "errors", VArray []);
             (lit "messages", VArray []); (lit "result", VArray []) ]).
  - exact alice_update_is_update_request.
  - reflexivity.
  - right. by vm_compute.
Defined.

Lemma credentials_split_at_first_colon_witness :
  decoded_text (lit "Basic YWxpY2U6cEBzczp3b3Jk") = Return (lit "alice:p@ss:word")
  /\ exists username password,
       basicAuthentication Sample.alice_update = Return (username, password)
       /\ lit "alice:p@ss:word" = username ++ 58%N :: password
       /\ 58%N ∉ username.
Proof.
  split; [by vm_compute|].
  apply (credentials_split_at_first_colon Sample.alice_update
           (lit "Basic YWxpY2U6cEBzczp3b3Jk") (lit "alice:p@ss:word")).
  - by vm_compute.
  - by vm_compute.
  - apply list_elem_of_In. vm_compute. auto 10.
  - vm_compute. repeat (constructor; [split; [reflexivity|discriminate]|]).
    constructor.
Defined.

Lemma malformed_credentials_rejected_witness :
  decoded_text (lit "Basic YWxpY2U=") = Return (lit "alice")
  /\ (58%N ∉ lit "alice")
  /\ exists err,
       basicAuthentication Sample.no_colon_update = Throw err
       /\ err = BadRequestException (lit "Invalid authorization value.")
       /\ exn_status err = Some 400
       /\ status (error_response err) = 400.
Proof.
  split; [by vm_compute|].
  split; [no_colon|].
  apply (malformed_credentials_rejected Sample.no_colon_update
           (lit "Basic YWxpY2U=") (lit "alice")).
  - by vm_compute.
  - by vm_compute.
  - right. no_colon.
Defined.

(** C6 as stated fails: the decoded text [alice] has no colon, and the
    reason of the exception is not [Invalid authorization value]
    without the full stop. *)
Lemma malformed_credentials_reason_differs :
  headers_get Sample.no_colon_update (lit "Authorization")
  = Some (lit "Basic YWxpY2U=")
  /\ decoded_text (lit "Basic YWxpY2U=") = Return (lit "alice")
  /\ (58%N ∉ lit "alice")
  /\ basicAuthentication Sample.no_colon_update
     <> Throw (BadRequestException (lit "Invalid authorization value")).
Proof.
  split; [by vm_compute|].
  split; [by vm_compute|].
  split; [no_colon|].
  intros Hrun. vm_compute in Hrun. discriminate.
Qed.



Lemma zone_lookup_keyed_by_username_witness :
  let cf := new_Cloudflare (lit "p@ss:word") in
  let address :=
    match headers_get Sample.alice_update (lit "cf-connecting-ip") with
    | Some s => VString s
    | None => VNull
    end in
  let log := snd (handleRequest Sample.provider_ok Sample.alice_update []) in
  log !! 0%nat = Some (zone_call cf (lit "alice"))
  /\ call_url (zone_call cf (lit "alice") : FetchCall Z)
     = lit "https://api.cloudflare.com/client/v4/zones?name=" ++ lit "alice"
  /\ (forall request' hostname',
        update_request request' (lit "alice") (lit "p@ss:word") hostname' ->
        snd (handleRequest Sample.provider_ok request' []) !! 0%nat = log !! 0%nat)
  /\ (forall c, log !! 1%nat = Some c <->
        exists zone id zone_id,
          fst (findZone Sample.provider_ok cf (lit "alice") []) = Return zone
          /\ member zone (lit "id") = Return id
          /\ to_string id = Return zone_id
          /\ c = record_call cf zone_id (Some (lit "home.example.com")))
  /\ (forall zone_id,
        call_url (record_call cf zone_id (Some (lit "home.example.com"))
                  : FetchCall Z)
        = lit "https://api.cloudflare.com/client/v4/zones/"
            ++ zone_id ++ lit "/dns_records?name=" ++ lit "home.example.com")
  /\ (forall c, log !! 2%nat = Some c <->
        exists zone record record' z zone_id i id,
          fst (findZone Sample.provider_ok cf (lit "alice") []) = Return zone
          /\ fst (findRecord Sample.provider_ok cf zone
                    (Some (lit "home.example.com"))
                    [zone_call cf (lit "alice")]) = Return record
          /\ set_content record address = Return record'
          /\ member record' (lit "zone_id") = Return z
          /\ to_string z = Return zone_id
          /\ member record' (lit "id") = Return i
          /\ to_string i = Return id
          /\ c = update_call cf zone_id id record')
  /\ (forall request' hostname',
        update_request request' (lit "alice") (lit "p@ss:word") hostname' ->
        headers_get request' (lit "cf-connecting-ip")
        = headers_get Sample.alice_update (lit "cf-connecting-ip") ->
        (forall zone,
            fst (findRecord Sample.provider_ok cf zone (Some hostname')
                   [zone_call cf (lit "alice")])
            = fst (findRecord Sample.provider_ok cf zone
                     (Some (lit "home.example.com"))
                     [zone_call cf (lit "alice")])) ->
        snd (handleRequest Sample.provider_ok request' []) !! 2%nat = log !! 2%nat)
  /\ (length log <= 3)%nat.
Proof.
  apply (zone_lookup_keyed_by_username Sample.provider_ok Sample.alice_update
           (lit "alice") (lit "p@ss:word") (lit "home.example.com")).
  exact alice_update_is_update_request.
Defined.

(** The three calls of the sample update, as the handler makes them. *)
Example alice_update_calls :
  snd (handleRequest Sample.provider_ok Sample.alice_update [])
  = Sample.alice_calls.
Proof. by vm_compute. Qed.

(** C8 on a host name outside ASCII. The update of
    [?hostname=%C3%A9.example.com] fails at the record lookup; the
    response has the exception's status and reason and disables
    caching, but its [Content-Length] is 41, the number of UTF-16 code
    units of the reason, while the body is 42 bytes long. *)
Theorem content_length_counts_code_units :
  let response := fst (respond Sample.provider_no_record Sample.accented_update) in
  let reason := lit "Failed to find dns record '"
                ++ (233%N :: lit ".example.com") ++ lit "'" in
  fst (handleRequest Sample.provider_no_record Sample.accented_update [])
  = Throw (CloudflareApiException reason)
  /\ status response = 500
  /\ statusText response = Text (lit "Internal Server Error")
  /\ body response = Some reason
  /\ response_header (lit "Cache-Control") response = Some (lit "no-store")
  /\ response_header (lit "Content-Length") response = Some (lit "41")
  /\ length reason = 41%nat
  /\ length (body_bytes response) = 42%nat.
Proof. repeat split; by vm_compute. Qed.

End Samples.

(** * Further properties of the script *)

(** ** Strings and keyed pairs *)

Lemma split_no_separator (sep : N) (s : jsstring) :
  sep ∉ s -> split sep s = [s].
Proof.
  induction s as [|x s IH]; intros Hnot; [reflexivity|].
  apply not_elem_of_cons in Hnot as [Hne Hnot]. simpl.
  destruct (N.eqb_spec x sep) as [->|_]; [done|].
  by rewrite (IH Hnot).
Qed.

Lemma split_at_first (sep : N) (before after : jsstring) :
  sep ∉ before -> split sep (before ++ sep :: after) = before :: split sep after.
Proof.
  induction before as [|x before IH]; intros Hnot; simpl.
  - by rewrite N.eqb_refl.
  - apply not_elem_of_cons in Hnot as [Hne Hnot].
    destruct (N.eqb_spec x sep) as [->|_]; [done|].
    by rewrite (IH Hnot).
Qed.

(** The second piece of [scheme ++ " " ++ encoded], with or without
    more pieces after it. *)
Lemma split_second_piece (scheme encoded : jsstring) :
  32%N ∉ scheme -> 32%N ∉ encoded ->
  split 32 (scheme ++ 32%N :: encoded) !! 1%nat = Some encoded
  /\ forall rest,
       split 32 (scheme ++ 32%N :: encoded ++ 32%N :: rest) !! 1%nat
       = Some encoded.
Proof.
  intros Hs He. split.
  - by rewrite (split_at_first _ _ _ Hs), (split_no_separator _ _ He).
  - intros rest.
    by rewrite (split_at_first _ _ _ Hs), (split_at_first _ _ _ He).
Qed.

(** A position [indexOf] finds is that of the first occurrence. *)
Lemma indexOf_found (c : N) (s : jsstring) (i : Z) :
  indexOf c s = i -> i <> -1 ->
  exists before after,
    s = before ++ c :: after /\ (c ∉ before) /\ i = Z.of_nat (length before).
Proof.
  revert i. induction s as [|x s IH]; intros i Hi Hfound; simpl in Hi; [congruence|].
  destruct (N.eqb_spec x c) as [->|Hne].
  - exists [], s. subst i. repeat split. apply not_elem_of_nil.
  - destruct (Z.eqb_spec (indexOf c s) (-1)) as [Habsent|Hpresent]; [congruence|].
    destruct (IH _ eq_refl Hpresent) as (before & after & -> & Hnot & Hlen).
    exists (x :: before), after. repeat split.
    + apply not_elem_of_cons. split; [congruence|done].
    + subst i. rewrite Hlen. simpl length. lia.
Qed.

Lemma has_control_app (s t : jsstring) :
  has_control (s ++ t) = has_control s || has_control t.
Proof. unfold has_control. apply existsb_app. Qed.

Lemma assoc_set_same {A : Type} (key : jsstring) (v : A) (l : list (jsstring * A)) :
  assoc key (assoc_set key v l) = Some v.
Proof.
  induction l as [|[k w] l IH]; simpl.
  - by rewrite str_eqb_refl.
  - destruct (str_eqb k key) eqn:Hk; simpl; rewrite Hk; [done|exact IH].
Qed.

Lemma assoc_set_other {A : Type} (key key' : jsstring) (v : A)
  (l : list (jsstring * A)) :
  key' <> key -> assoc key' (assoc_set key v l) = assoc key' l.
Proof.
  intros Hne. induction l as [|[k w] l IH]; simpl.
  - rewrite str_eqb_neq; [done|congruence].
  - destruct (str_eqb k key) eqn:Hk; simpl.
    + apply str_eqb_eq in Hk as ->. rewrite str_eqb_neq; [done|congruence].
    + by rewrite IH.
Qed.

Lemma assoc_set_twice {A : Type} (key : jsstring) (v w : A)
  (l : list (jsstring * A)) :
  assoc_set key w (assoc_set key v l) = assoc_set key w l.
Proof.
  induction l as [|[k u] l IH]; simpl.
  - by rewrite str_eqb_refl.
  - destruct (str_eqb k key) eqn:Hk; simpl; rewrite Hk; [done|by rewrite IH].
Qed.

Lemma assoc_set_keys {A : Type} (key : jsstring) (v w : A)
  (l : list (jsstring * A)) :
  assoc key l = Some w -> map fst (assoc_set key v l) = map fst l.
Proof.
  induction l as [|[k u] l IH]; simpl; [done|].
  destruct (str_eqb k key) eqn:Hk; simpl; [done|].
  intros Hl. by rewrite (IH Hl).
Qed.

Lemma utf8_of_scalar_length (c : N) :
  (1 <= length (utf8_of_scalar c) <= 4)%nat.
Proof.
  unfold utf8_of_scalar.
  destruct (c <? 128)%N; [simpl; lia|].
  destruct (c <? 2048)%N; [simpl; lia|].
  destruct (c <? 65536)%N; simpl; lia.
Qed.

Lemma utf8_encode_cons (c : N) (s : jsstring) :
  utf8_encode (c :: s)
  = if is_high_surrogate c then
      match s with
      | d :: s' =>
          if is_low_surrogate d then
            utf8_of_scalar (65536 + (c - 55296) * 1024 + (d - 56320))%N
              ++ utf8_encode s'
          else utf8_of_scalar 65533 ++ utf8_encode s
      | [] => utf8_of_scalar 65533
      end
    else if is_low_surrogate c then utf8_of_scalar 65533 ++ utf8_encode s
    else utf8_of_scalar c ++ utf8_encode s.
Proof. reflexivity. Qed.

(** The UTF-8 bytes of a text are at least as many as its code units. *)
Lemma utf8_encode_length (s : jsstring) :
  (length s <= length (utf8_encode s))%nat.
Proof.
  remember (length s) as n eqn:Hn. revert s Hn.
  induction n as [n IH] using lt_wf_ind. intros s Hn.
  destruct s as [|c s]; [simpl in *; lia|].
  rewrite utf8_encode_cons.
  assert (forall t, (length t < n)%nat -> (length t <= length (utf8_encode t))%nat)
    as Hrec by (intros t Ht; by apply (IH (length t))).
  simpl in Hn.
  destruct (is_high_surrogate c).
  - destruct s as [|d s];
      [pose proof (utf8_of_scalar_length 65533); simpl in Hn; lia|].
    destruct (is_low_surrogate d).
    + rewrite length_app. simpl in Hn.
      pose proof (Hrec s ltac:(lia)).
      assert (length (utf8_of_scalar
                        (65536 + (c - 55296) * 1024 + (d - 56320))%N) = 4%nat)
        as ->; [|lia].
      unfold utf8_of_scalar.
      destruct (N.ltb_spec (65536 + (c - 55296) * 1024 + (d - 56320)) 128); [lia|].
      destruct (N.ltb_spec (65536 + (c - 55296) * 1024 + (d - 56320)) 2048); [lia|].
      destruct (N.ltb_spec (65536 + (c - 55296) * 1024 + (d - 56320)) 65536); [lia|].
      reflexivity.
    + rewrite length_app.
      pose proof (Hrec (d :: s) ltac:(lia)).
      pose proof (utf8_of_scalar_length 65533). lia.
  - destruct (is_low_surrogate c); rewrite length_app;
      pose proof (Hrec s ltac:(lia));
      [pose proof (utf8_of_scalar_length 65533)
      |pose proof (utf8_of_scalar_length c)]; lia.
Qed.

Section Coverage.

Context {number : Type} `{Runtime number}.
Variable provider : list (FetchCall number) -> FetchCall number -> fetched number.

(** ** The router *)

Lemma secure_of_check (request : Request) :
  negb (str_eqb (lit "https:") (protocol (url request)))
  || negb (bool_decide
             (headers_get request (lit "x-forwarded-proto") = Some (lit "https")))
  = false ->
  secure request.
Proof.
  intros Hcheck. apply orb_false_iff in Hcheck as [Hp Hx].
  apply negb_false_iff in Hp, Hx. split.
  - symmetry. by apply str_eqb_eq.
  - by apply bool_decide_eq_true in Hx.
Qed.

(** X1. Over secure transport, [/myip] is answered with status 200 and
    the [cf-connecting-ip] header as the body, unchanged ([null] when
    the header is absent); credentials and query are not read and the
    provider is not called. *)
Theorem myip_echoes_address (request : Request) :
  secure request ->
  pathname (url request) = lit "/myip" ->
  exists response,
    handleRequest provider request [] = (Return response, [])
    /\ status response = 200
    /\ body response = headers_get request (lit "cf-connecting-ip")
    /\ response_headers response = [].
Proof.
  intros Hsec Hpath.
  exists {| body := headers_get request (lit "cf-connecting-ip"); status := 200;
            statusText := TextAbsent; response_headers := [] |}.
  split; [|by repeat split].
  unfold handleRequest. rewrite (secure_check _ Hsec), Hpath.
  by rewrite str_eqb_refl.
Qed.

(** X2. Over secure transport, [/favicon.ico] and [/robots.txt] are
    answered with status 204 and no body, whether or not the request
    carries credentials; the provider is not called. *)
Theorem static_paths_no_content (request : Request) :
  secure request ->
  pathname (url request) = lit "/favicon.ico"
  \/ pathname (url request) = lit "/robots.txt" ->
  exists response,
    handleRequest provider request [] = (Return response, [])
    /\ status response = 204
    /\ body response = None
    /\ body_bytes response = [].
Proof.
  intros Hsec Hpath.
  exists {| body := None; status := 204; statusText := TextAbsent;
            response_headers := [] |}.
  split; [|by repeat split].
  unfold handleRequest. rewrite (secure_check _ Hsec).
  by destruct Hpath as [-> | ->].
Qed.

(** X3. Over secure transport, a path other than the five the router
    knows is answered with status 404 and the body [Not Found.]; the
    provider is not called. *)
Theorem unknown_path_not_found (request : Request) :
  secure request ->
  pathname (url request) ∉
    [ lit "/myip"; lit "/nic/update"; lit "/update";
      lit "/favicon.ico"; lit "/robots.txt" ] ->
  exists response,
    handleRequest provider request [] = (Return response, [])
    /\ status response = 404
    /\ body response = Some (lit "Not Found.").
Proof.
  intros Hsec Hpath.
  exists {| body := Some (lit "Not Found."); status := 404;
            statusText := TextAbsent; response_headers := [] |}.
  split; [|by repeat split].
  unfold handleRequest. rewrite (secure_check _ Hsec).
  repeat (apply not_elem_of_cons in Hpath as [? Hpath]).
  by rewrite !str_eqb_neq.
Qed.

(** Either no call is made, or the request is an update request and
    the handler is the update flow. *)
Lemma handleRequest_calls_provider (request : Request)
  (o : outcome Response) (log : list (FetchCall number)) :
  handleRequest provider request [] = (o, log) ->
  log = []
  \/ exists username password hostname,
       update_request request username password hostname.
Proof.
  unfold handleRequest.
  destruct (negb _ || negb _) eqn:Hcheck; [intros [= <- <-]; by left|].
  apply secure_of_check in Hcheck.
  destruct (str_eqb _ (lit "/myip")); [intros [= <- <-]; by left|].
  destruct (str_eqb _ (lit "/nic/update") || str_eqb _ (lit "/update")) eqn:Hpath.
  - assert (update_path request) as Hupdate.
    { apply orb_true_iff in Hpath as [Hp|Hp]; apply str_eqb_eq in Hp;
        [by left|by right]. }
    destruct (headers_has request (lit "Authorization"));
      [|intros [= <- <-]; by left].
    unfold bind at 1, lift at 1.
    destruct (basicAuthentication request) as [[username password]|e] eqn:Hauth;
      [|intros [= <- <-]; by left].
    unfold bind at 1, lift at 1, verifyParameters.
    destruct (searchParams_get _ _) as [[|c hostname]|] eqn:Hhost;
      try (intros [= <- <-]; by left).
    intros _. right. exists username, password, (c :: hostname).
    split; [exact Hcheck|]. split; [exact Hupdate|].
    split; [exact Hauth|]. split; [exact Hhost|done].
  - destruct (str_eqb _ (lit "/favicon.ico") || str_eqb _ (lit "/robots.txt"));
      intros [= <- <-]; by left.
Qed.

(** X4. The provider is called only for update requests: if the
    handler makes any call, the request came over secure transport on
    an update path, its credentials parsed and its [hostname] parameter
    is not empty. *)
Theorem provider_called_only_for_update_requests (request : Request)
  (o : outcome Response) (log : list (FetchCall number)) :
  handleRequest provider request [] = (o, log) ->
  log <> [] ->
  exists username password hostname,
    update_request request username password hostname.
Proof.
  intros Hrun Hcalls.
  by destruct (handleRequest_calls_provider _ _ _ Hrun) as [-> | Hreq].
Qed.

(** ** Answers of the provider *)

(** The test of a lookup on an answer that is an object. *)
Lemma lookup_failed_object (members : list (jsstring * value number)) :
  (assoc (lit "success") members <> Some (VBool true)
   \/ assoc (lit "result") members = Some (VArray []) ->
   lookup_failed (VObject members) = Return true)
  /\ (forall first others,
        assoc (lit "success") members = Some (VBool true) ->
        assoc (lit "result") members = Some (VArray (first :: others)) ->
        lookup_failed (VObject members) = Return false
        /\ first_result (VObject members) = Return first).
Proof.
  unfold lookup_failed, first_result, member, bind_outcome. split.
  - intros Hfailed.
    destruct (assoc (lit "success") members) as [[| |[|]| | | |]|] eqn:Hs;
      simpl; try reflexivity.
    destruct Hfailed as [Hfailed | ->]; [done|reflexivity].
  - intros first others -> ->. by split.
Qed.

Lemma findZone_found (this : Cloudflare) (name : jsstring)
  (log : list (FetchCall number)) (members : list (jsstring * value number))
  (zone : value number) (others : list (value number)) :
  provider log (zone_call this name) = JsonBody (VObject members) ->
  assoc (lit "success") members = Some (VBool true) ->
  assoc (lit "result") members = Some (VArray (zone :: others)) ->
  findZone provider this name log = (Return zone, log ++ [zone_call this name]).
Proof.
  intros Hanswer Hs Hr.
  destruct (proj2 (lookup_failed_object members) _ _ Hs Hr) as [Hfailed Hfirst].
  unfold findZone, bind, fetch_json, lift. by rewrite Hanswer, Hfailed, Hfirst.
Qed.

Lemma findRecord_found (this : Cloudflare) (zone : list (jsstring * value number))
  (name : option jsstring) (log : list (FetchCall number)) (zone_id : jsstring)
  (members : list (jsstring * value number))
  (record : value number) (others : list (value number)) :
  to_string (default VUndefined (assoc (lit "id") zone)) = Return zone_id ->
  provider log (record_call this zone_id name) = JsonBody (VObject members) ->
  assoc (lit "success") members = Some (VBool true) ->
  assoc (lit "result") members = Some (VArray (record :: others)) ->
  findRecord provider this (VObject zone) name log
  = (Return record, log ++ [record_call this zone_id name]).
Proof.
  intros Hid Hanswer Hs Hr.
  destruct (proj2 (lookup_failed_object members) _ _ Hs Hr) as [Hfailed Hfirst].
  unfold findRecord, bind, fetch_json, lift, member.
  by rewrite Hid, Hanswer, Hfailed, Hfirst.
Qed.

Lemma findRecord_not_found (this : Cloudflare) (zone : list (jsstring * value number))
  (name : option jsstring) (log : list (FetchCall number)) (zone_id : jsstring)
  (members : list (jsstring * value number)) :
  to_string (default VUndefined (assoc (lit "id") zone)) = Return zone_id ->
  provider log (record_call this zone_id name) = JsonBody (VObject members) ->
  assoc (lit "success") members <> Some (VBool true)
  \/ assoc (lit "result") members = Some (VArray []) ->
  findRecord provider this (VObject zone) name log
  = (Throw (CloudflareApiException
              (lit "Failed to find dns record '" ++ nullable_to_string name
                 ++ lit "'")),
     log ++ [record_call this zone_id name]).
Proof.
  intros Hid Hanswer Hfailed.
  unfold findRecord, bind, fetch_json, lift, throw, member.
  by rewrite Hid, Hanswer, (proj1 (lookup_failed_object members) Hfailed).
Qed.

(** The call [updateRecord] makes for a record that is an object whose
    [zone_id] and [id] can be printed. *)
Lemma updateRecord_call (this : Cloudflare) (record : list (jsstring * value number))
  (v : option jsstring) (log : list (FetchCall number)) (zone_id id : jsstring) :
  to_string (default VUndefined (assoc (lit "zone_id") record)) = Return zone_id ->
  to_string (default VUndefined (assoc (lit "id") record)) = Return id ->
  let sent := assoc_set (lit "content")
                (match v with Some s => VString s | None => VNull end) record in
  let c := update_call this zone_id id (VObject sent) in
  updateRecord provider this (VObject record) v log
  = match provider log c with
    | FetchRejected stack | JsonRejected stack =>
        (Throw (RuntimeError stack), log ++ [c])
    | JsonBody answer =>
        match member answer (lit "success") with
        | Throw e => (Throw e, log ++ [c])
        | Return success =>
            if is_not_true success then
              (Throw (CloudflareApiException (lit "Failed to update dns record")),
               log ++ [c])
            else (first_result answer, log ++ [c])
        end
    end.
Proof.
  intros Hzone_id Hid sent c.
  unfold updateRecord, bind, lift, throw, fetch_json. simpl.
  rewrite (assoc_set_other (lit "content") (lit "zone_id")); [|by vm_compute].
  rewrite (assoc_set_other (lit "content") (lit "id")); [|by vm_compute].
  rewrite Hzone_id, Hid.
  fold sent. fold c. destruct (provider log c); try reflexivity.
  destruct (member v0 (lit "success")) as [success|]; [|reflexivity].
  destruct (is_not_true success); reflexivity.
Qed.

(** When [record.zone_id] or [record.id] cannot be printed,
    [updateRecord] throws before any call. *)
Lemma updateRecord_unprintable (this : Cloudflare)
  (record : list (jsstring * value number)) (v : option jsstring)
  (log : list (FetchCall number)) :
  (exists e, to_string (default VUndefined (assoc (lit "zone_id") record)) = Throw e)
  \/ (exists e, to_string (default VUndefined (assoc (lit "id") record)) = Throw e) ->
  updateRecord provider this (VObject record) v log = (Throw TypeError, log).
Proof.
  intros Hbad.
  unfold updateRecord, bind, lift, throw, fetch_json. simpl.
  rewrite (assoc_set_other (lit "content") (lit "zone_id")); [|by vm_compute].
  rewrite (assoc_set_other (lit "content") (lit "id")); [|by vm_compute].
  destruct (to_string (default VUndefined (assoc (lit "zone_id") record)))
    as [zone_id|e1] eqn:Hz.
  - destruct Hbad as [[e He]|[e He]]; [done|]. rewrite He.
    by rewrite (to_string_throws_TypeError _ _ He).
  - by rewrite (to_string_throws_TypeError _ _ Hz).
Qed.

Lemma first_element_defined (v : value number) :
  v <> VNull -> v <> VUndefined -> exists x, first_element v = Return x.
Proof. destruct v; simpl; intros Hnull Hundef; try done; by eexists. Qed.

Lemma is_not_true_member (members : list (jsstring * value number)) :
  assoc (lit "success") members <> Some (VBool true) ->
  is_not_true (default VUndefined (assoc (lit "success") members)) = true.
Proof.
  intros Hs. by destruct (assoc (lit "success") members) as [[| |[|]| | | |]|].
Qed.

Lemma is_not_true_false (v : value number) :
  is_not_true v = false -> v = VBool true.
Proof. by destruct v as [| |[|]| | | |]. Qed.

(** ** The update flow on answers of the expected shape *)

Section Flow.

Variable request : Request.
Variables username password hostname : jsstring.
Hypothesis Hrequest : update_request request username password hostname.

(** The zone and the record the provider names first, as objects, and
    the answers that carry them. *)
Variables zone record : list (jsstring * value number).
Variables other_zones other_records : list (value number).
Variables zone_answer record_answer : list (jsstring * value number).

(** The texts of [zone.id], [record.zone_id] and [record.id]. *)
Variables zone_id record_zone_id record_id : jsstring.

Let cf : Cloudflare := new_Cloudflare password.
Let ip : option jsstring := headers_get request (lit "cf-connecting-ip").
Let zc : FetchCall number := zone_call cf username.
Let rc : FetchCall number := record_call cf zone_id (Some hostname).
Let sent : list (jsstring * value number) :=
  assoc_set (lit "content")
    (match ip with Some s => VString s | None => VNull end) record.
Let uc : FetchCall number :=
  update_call cf record_zone_id record_id (VObject sent).

Hypothesis Hzone : provider [] zc = JsonBody (VObject zone_answer).
Hypothesis Hzone_success : assoc (lit "success") zone_answer = Some (VBool true).
Hypothesis Hzone_result :
  assoc (lit "result") zone_answer = Some (VArray (VObject zone :: other_zones)).
Hypothesis Hzone_id :
  to_string (default VUndefined (assoc (lit "id") zone)) = Return zone_id.

Lemma flow_after_zone :
  handleRequest provider request []
  = bind (findRecord provider cf (VObject zone) (Some hostname))
      (fun record => bind (updateRecord provider cf record ip) (fun _ => ret good))
      [zc].
Proof.
  rewrite (handleRequest_update provider _ _ _ _ Hrequest).
  destruct Hrequest as (_ & _ & _ & Hhost & _).
  unfold informAPI. rewrite Hhost. fold cf. fold ip. unfold bind at 1.
  by rewrite (findZone_found cf username [] _ _ _ Hzone Hzone_success Hzone_result).
Qed.

(** X6. When the zone is found, its [id] can be printed, and the
    record lookup is answered by an
    object without [success: true], or with an empty [result] list, the
    handler throws a [CloudflareApiException] with the reason
    [Failed to find dns record '<hostname>']; the calls made are the
    zone lookup and the record lookup, and no update. *)
Theorem record_lookup_failure_stops :
  provider [zc] rc = JsonBody (VObject record_answer) ->
  assoc (lit "success") record_answer <> Some (VBool true)
  \/ assoc (lit "result") record_answer = Some (VArray []) ->
  handleRequest provider request []
  = (Throw (CloudflareApiException
              (lit "Failed to find dns record '" ++ hostname ++ lit "'")),
     [zc; rc]).
Proof.
  intros Hanswer Hfailed. rewrite flow_after_zone. unfold bind at 1.
  by rewrite (findRecord_not_found cf zone (Some hostname) [zc] zone_id _
                Hzone_id Hanswer Hfailed).
Qed.

Hypothesis Hrecord : provider [zc] rc = JsonBody (VObject record_answer).
Hypothesis Hrecord_success :
  assoc (lit "success") record_answer = Some (VBool true).
Hypothesis Hrecord_result :
  assoc (lit "result") record_answer
  = Some (VArray (VObject record :: other_records)).
Hypothesis Hrecord_zone_id :
  to_string (default VUndefined (assoc (lit "zone_id") record))
  = Return record_zone_id.
Hypothesis Hrecord_id :
  to_string (default VUndefined (assoc (lit "id") record)) = Return record_id.

Lemma flow_after_record :
  handleRequest provider request []
  = bind (updateRecord provider cf (VObject record) ip) (fun _ => ret good)
      [zc; rc].
Proof.
  rewrite flow_after_zone. unfold bind at 1.
  by rewrite (findRecord_found cf zone (Some hostname) [zc] zone_id _ _ _
                Hzone_id Hrecord Hrecord_success Hrecord_result).
Qed.

(** X5. When every answer has the expected shape ([success: true]; a
    first zone and a first record that are objects whose [id] and
    [zone_id] can be printed, as strings, numbers and objects without a
    [toString] member of their own can; a [result] in the answer to the
    update), the handler returns the [good] response
    after exactly three calls: the zone lookup for the username, the
    record lookup in the first zone for the hostname, and a [PUT] of
    the first record with its [content] set to the requester's
    address. Further zones and records in the answers change
    nothing. *)
Theorem well_formed_answers_succeed
  (update_answer : list (jsstring * value number)) (result : value number) :
  provider [zc; rc] uc = JsonBody (VObject update_answer) ->
  assoc (lit "success") update_answer = Some (VBool true) ->
  assoc (lit "result") update_answer = Some result ->
  result <> VNull ->
  result <> VUndefined ->
  handleRequest provider request [] = (Return good, [zc; rc; uc])
  /\ call_method uc = Some (lit "PUT")
  /\ call_body uc = Some (VObject sent)
  /\ assoc (lit "content") sent
     = Some (match headers_get request (lit "cf-connecting-ip") with
             | Some address => VString address
             | None => VNull
             end).
Proof.
  intros Hanswer Hs Hr Hnull Hundef.
  split; [|repeat split; apply assoc_set_same].
  rewrite flow_after_record. unfold bind at 1.
  rewrite (updateRecord_call cf record ip [zc; rc] _ _
             Hrecord_zone_id Hrecord_id).
  fold sent. fold uc. rewrite Hanswer. unfold member. rewrite Hs. simpl.
  unfold first_result, member, bind_outcome. rewrite Hr. simpl.
  destruct (first_element_defined result Hnull Hundef) as [x ->]. reflexivity.
Qed.

(** X7. When the zone and the record are found, their [id] and
    [zone_id] can be printed, and the update is
    answered by an object without [success: true], the handler throws a
    [CloudflareApiException], status 500, with the reason
    [Failed to update dns record], after the three calls. *)
Theorem update_refused_reported (update_answer : list (jsstring * value number)) :
  provider [zc; rc] uc = JsonBody (VObject update_answer) ->
  assoc (lit "success") update_answer <> Some (VBool true) ->
  exists err,
    handleRequest provider request [] = (Throw err, [zc; rc; uc])
    /\ err = CloudflareApiException (lit "Failed to update dns record")
    /\ status (error_response err) = 500
    /\ body (error_response err) = Some (lit "Failed to update dns record").
Proof.
  intros Hanswer Hs. eexists. split; [|by repeat split].
  rewrite flow_after_record. unfold bind at 1.
  rewrite (updateRecord_call cf record ip [zc; rc] _ _
             Hrecord_zone_id Hrecord_id).
  fold sent. fold uc. rewrite Hanswer. unfold member.
  by rewrite (is_not_true_member _ Hs).
Qed.

(** X15. When the zone and the record are found, their [id] and
    [zone_id] can be printed, and the update is accepted
    ([success: true]) but its answer
    has no [result], or a [null] one, reading [body.result[0]] throws a
    [TypeError]: the handler fails with status 500 although the [PUT]
    was made and accepted. *)
Theorem update_answer_without_result
  (update_answer : list (jsstring * value number)) :
  provider [zc; rc] uc = JsonBody (VObject update_answer) ->
  assoc (lit "success") update_answer = Some (VBool true) ->
  assoc (lit "result") update_answer = None
  \/ assoc (lit "result") update_answer = Some VNull ->
  handleRequest provider request [] = (Throw TypeError, [zc; rc; uc])
  /\ status (error_response TypeError) = 500.
Proof.
  intros Hanswer Hs Hr. split; [|reflexivity].
  rewrite flow_after_record. unfold bind at 1.
  rewrite (updateRecord_call cf record ip [zc; rc] _ _
             Hrecord_zone_id Hrecord_id).
  fold sent. fold uc. rewrite Hanswer. unfold member. rewrite Hs. simpl.
  unfold first_result, member, bind_outcome.
  by destruct Hr as [-> | ->].
Qed.

End Flow.

(** X14. When the zone lookup is answered with [success: true] but no
    [result], or a [null] one, reading [body.result.length] throws a
    [TypeError]: the handler fails with status 500, not with the
    [CloudflareApiException] of a zone that is not found, and stops
    after that call. *)
Theorem zone_answer_without_result (request : Request)
  (username password hostname : jsstring)
  (zone_answer : list (jsstring * value number)) :
  update_request request username password hostname ->
  provider [] (zone_call (new_Cloudflare password) username)
  = JsonBody (VObject zone_answer) ->
  assoc (lit "success") zone_answer = Some (VBool true) ->
  assoc (lit "result") zone_answer = None
  \/ assoc (lit "result") zone_answer = Some VNull ->
  handleRequest provider request []
  = (Throw TypeError, [zone_call (new_Cloudflare password) username])
  /\ status (error_response TypeError) = 500.
Proof.
  intros Hreq Hanswer Hs Hr. split; [|reflexivity].
  rewrite (handleRequest_update provider _ _ _ _ Hreq).
  unfold informAPI, bind, findZone, bind, fetch_json, lift.
  rewrite Hanswer. unfold lookup_failed, member, bind_outcome. rewrite Hs. simpl.
  by destruct Hr as [-> | ->].
Qed.

(** ** The record sent back *)

(** X8. For a record that is an object whose [zone_id] and [id] can
    be printed, [updateRecord] makes exactly one call, a [PUT] to
    [zones/<zone_id>/dns_records/<id>] of that record, whose body is
    the record with [content] set to the new value: every other member
    keeps its value, and the order of the members is kept when the
    record already had a [content]. When [zone_id] or [id] cannot be
    printed it throws a [TypeError] and makes no call. *)
Theorem update_sends_address (this : Cloudflare)
  (record : list (jsstring * value number)) (v : option jsstring)
  (log : list (FetchCall number)) :
  let sent :=
    assoc_set (lit "content")
      (match v with Some s => VString s | None => VNull end) record in
  (forall zone_id id,
      to_string (default VUndefined (assoc (lit "zone_id") record))
      = Return zone_id ->
      to_string (default VUndefined (assoc (lit "id") record)) = Return id ->
      exists c,
        snd (updateRecord provider this (VObject record) v log) = log ++ [c]
        /\ call_method c = Some (lit "PUT")
        /\ call_url c
           = lit "https://api.cloudflare.com/client/v4/zones/"
               ++ zone_id ++ lit "/dns_records/" ++ id
        /\ call_body c = Some (VObject sent))
  /\ ((exists e, to_string (default VUndefined (assoc (lit "zone_id") record))
                 = Throw e)
      \/ (exists e, to_string (default VUndefined (assoc (lit "id") record))
                    = Throw e) ->
      updateRecord provider this (VObject record) v log = (Throw TypeError, log))
  /\ assoc (lit "content") sent
     = Some (match v with Some s => VString s | None => VNull end)
  /\ (forall key, key <> lit "content" -> assoc key sent = assoc key record)
  /\ (is_Some (assoc (lit "content") record) -> map fst sent = map fst record).
Proof.
  intros sent. split; [|split; [apply updateRecord_unprintable|]].
  - intros zone_id id Hzone_id Hid.
    exists (update_call this zone_id id (VObject sent)). split; [|done].
    rewrite (updateRecord_call this record v log _ _ Hzone_id Hid). fold sent.
    destruct (provider log _) as [stack|stack|answer]; try reflexivity.
    destruct (member answer (lit "success")) as [success|]; [|reflexivity].
    destruct (is_not_true success); reflexivity.
  - split; [apply assoc_set_same|]. split.
    + intros key Hkey. by apply assoc_set_other.
    + intros [w Hw]. by apply (assoc_set_keys _ _ w).
Qed.

(** X9. The assignment to [content] overwrites: for a record that
    already carries the new value (as the provider returns it after an
    update), [updateRecord] makes the same calls as for the record
    before the update, and a call it makes has that record as its
    body. *)
Theorem repeated_update_sends_same_call (this : Cloudflare)
  (record : list (jsstring * value number)) (v : option jsstring)
  (log : list (FetchCall number)) :
  let updated :=
    assoc_set (lit "content")
      (match v with Some s => VString s | None => VNull end) record in
  snd (updateRecord provider this (VObject updated) v log)
  = snd (updateRecord provider this (VObject record) v log)
  /\ forall c,
       snd (updateRecord provider this (VObject record) v log) = log ++ [c] ->
       call_body c = Some (VObject updated).
Proof.
  intros updated. rewrite !updateRecord_calls. simpl. unfold updated.
  rewrite assoc_set_twice.
  rewrite !(assoc_set_other (lit "content") (lit "zone_id")) by (by vm_compute).
  rewrite !(assoc_set_other (lit "content") (lit "id")) by (by vm_compute).
  split; [reflexivity|].
  intros c.
  destruct (to_string (default VUndefined (assoc (lit "zone_id") record)));
    simpl.
  - destruct (to_string (default VUndefined (assoc (lit "id") record))); simpl.
    + intros Hc. apply app_inv_head in Hc. by injection Hc as <-.
    + intros Hc. apply (f_equal length) in Hc. rewrite length_app in Hc.
      simpl in Hc. lia.
  - intros Hc. apply (f_equal length) in Hc. rewrite length_app in Hc.
    simpl in Hc. lia.
Qed.

(** X22. When the zone that is found has an [id] that is an object
    with a member named [toString], the template literal of the record
    lookup cannot print it: the handler throws a [TypeError], status
    500, and stops after the zone lookup. *)
Theorem zone_id_with_toString_member (request : Request)
  (username password hostname : jsstring)
  (zone_answer zone : list (jsstring * value number))
  (other_zones : list (value number))
  (id : list (jsstring * value number)) :
  update_request request username password hostname ->
  provider [] (zone_call (new_Cloudflare password) username)
  = JsonBody (VObject zone_answer) ->
  assoc (lit "success") zone_answer = Some (VBool true) ->
  assoc (lit "result") zone_answer = Some (VArray (VObject zone :: other_zones)) ->
  assoc (lit "id") zone = Some (VObject id) ->
  is_Some (assoc (lit "toString") id) ->
  handleRequest provider request []
  = (Throw TypeError, [zone_call (new_Cloudflare password) username])
  /\ status (error_response TypeError) = 500.
Proof.
  intros Hreq Hanswer Hs Hr Hid [w Hw]. split; [|reflexivity].
  rewrite (handleRequest_update provider _ _ _ _ Hreq).
  unfold informAPI, bind at 1.
  rewrite (findZone_found _ _ [] _ _ _ Hanswer Hs Hr).
  unfold bind at 1, findRecord, bind at 1, lift at 1, member.
  rewrite Hid. simpl. unfold bind at 1, lift at 1. simpl. by rewrite Hw.
Qed.

(** ** The calls of a request *)

Lemma api_headers_token (password : jsstring) :
  api_headers (new_Cloudflare password)
  = [ (lit "Content-Type", lit "application/json");
      (lit "Authorization",
       lit "Bearer " ++ match password with
                        | [] => lit "undefined"
                        | _ => password
                        end) ].
Proof. by destruct password. Qed.

Lemma update_request_call_headers (request : Request)
  (username password hostname : jsstring) (c : FetchCall number) :
  update_request request username password hostname ->
  c ∈ snd (handleRequest provider request []) ->
  call_headers c = api_headers (new_Cloudflare password).
Proof.
  intros Hreq. rewrite (handleRequest_update provider _ _ _ _ Hreq).
  pose proof (informAPI_log provider
                (headers_get request (lit "cf-connecting-ip"))
                (url request) username password _ eq_refl) as Hlog.
  simpl in Hlog.
  destruct Hlog as [->|[[zone_id ->]|(zone_id & zone_id' & id & record & ->)]];
    intros Hc; repeat (apply elem_of_cons in Hc as [->|Hc]; [reflexivity|]);
    by apply elem_of_nil in Hc.
Qed.

(** X10. Every call of an update request carries the headers
    [Content-Type: application/json] and [Authorization: Bearer
    <password>], the password of the Basic credentials, when that
    password is not empty. *)
Theorem calls_carry_bearer_token (request : Request)
  (username password hostname : jsstring) (c : FetchCall number) :
  update_request request username password hostname ->
  password <> [] ->
  c ∈ snd (handleRequest provider request []) ->
  call_headers c
  = [ (lit "Content-Type", lit "application/json");
      (lit "Authorization", lit "Bearer " ++ password) ].
Proof.
  intros Hreq Hpassword Hc.
  rewrite (update_request_call_headers _ _ _ _ _ Hreq Hc), api_headers_token.
  by destruct password.
Qed.

(** X11. With an empty password the constructor leaves [this.token]
    unassigned, and every call of the update request carries
    [Authorization: Bearer undefined]. *)
Theorem empty_password_sends_undefined (request : Request)
  (username hostname : jsstring) (c : FetchCall number) :
  update_request request username [] hostname ->
  c ∈ snd (handleRequest provider request []) ->
  assoc (lit "Authorization") (call_headers c) = Some (lit "Bearer undefined").
Proof.
  intros Hreq Hc.
  by rewrite (update_request_call_headers _ _ _ _ _ Hreq Hc).
Qed.

(** The three kinds of call differ from each other. *)
Lemma calls_differ (this : Cloudflare) (name : jsstring)
  (zone_id : jsstring) (hostname : option jsstring)
  (zone_id' id : jsstring) (record : value number) :
  (zone_call this name : FetchCall number) <> record_call this zone_id hostname
  /\ zone_call this name <> update_call this zone_id' id record
  /\ record_call this zone_id hostname <> update_call this zone_id' id record.
Proof.
  split; [|split].
  - intros Heq. apply (f_equal call_url) in Heq. simpl in Heq.
    apply (f_equal (fun s => s !! 42%nat)) in Heq.
    vm_compute in Heq. discriminate.
  - intros Heq. apply (f_equal call_method) in Heq. discriminate.
  - intros Heq. apply (f_equal call_method) in Heq. discriminate.
Qed.

(** X12. Whatever the request and the provider's answers, the handler
    makes at most three calls and repeats none. Either it makes no
    call, or the request is an update request and the calls are, in
    this order, one zone lookup, then possibly one record lookup, then
    possibly one update; they are distinct; the first two use the
    default method and carry no body, the third is a [PUT] with a
    body. *)
Theorem at_most_three_calls (request : Request) :
  let log := snd (handleRequest provider request []) in
  (log = []
   \/ exists username password hostname,
        update_request request username password hostname
        /\ (log = [zone_call (new_Cloudflare password) username]
            \/ (exists zone_id,
                  log = [zone_call (new_Cloudflare password) username;
                         record_call (new_Cloudflare password) zone_id
                           (Some hostname)])
            \/ (exists zone_id zone_id' id record,
                  log = [zone_call (new_Cloudflare password) username;
                         record_call (new_Cloudflare password) zone_id
                           (Some hostname);
                         update_call (new_Cloudflare password) zone_id' id
                           record])))
  /\ NoDup log
  /\ (length log <= 3)%nat
  /\ (forall i c, (i < 2)%nat -> log !! i = Some c ->
        call_method c = None /\ call_body c = None)
  /\ (forall c, log !! 2%nat = Some c ->
        call_method c = Some (lit "PUT") /\ is_Some (call_body c)).
Proof.
  intros log.
  destruct (handleRequest provider request []) as [o log'] eqn:Hrun.
  subst log. simpl.
  destruct (handleRequest_calls_provider _ _ _ Hrun)
    as [-> | (username & password & hostname & Hreq)].
  { split; [by left|]. split; [constructor|].
    repeat split; simpl; try lia; intros; by simplify_list_eq. }
  rewrite (handleRequest_update provider _ _ _ _ Hreq) in Hrun.
  pose proof (informAPI_log provider
                (headers_get request (lit "cf-connecting-ip"))
                (url request) username password log'
                ltac:(by rewrite Hrun)) as Hlog.
  simpl in Hlog.
  assert (searchParams_get (lit "hostname") (searchParams (url request))
          = Some hostname) as Hhost by apply Hreq.
  rewrite Hhost in Hlog.
  split.
  { right. exists username, password, hostname. by split. }
  destruct Hlog as [->|[[zone_id ->]|(zone_id & zone_id' & id & record & ->)]].
  - split; [apply NoDup_singleton|]. split; [simpl; lia|]. split.
    + intros [|[|i]] c Hi Hc; try lia; simpl in Hc; by simplify_eq.
    + intros c Hc. simpl in Hc. discriminate.
  - split.
    { apply NoDup_cons. split; [|apply NoDup_singleton].
      intros Hin. apply list_elem_of_singleton in Hin.
      by apply (calls_differ _ _ zone_id (Some hostname) [] [] VNull) in Hin. }
    split; [simpl; lia|]. split.
    + intros [|[|i]] c Hi Hc; try lia; simpl in Hc; by simplify_eq.
    + intros c Hc. simpl in Hc. discriminate.
  - pose proof (calls_differ (new_Cloudflare password) username zone_id
                  (Some hostname) zone_id' id record) as (Hzr & Hzu & Hru).
    split.
    { apply NoDup_cons. split.
      - intros Hin. apply elem_of_cons in Hin as [Hin|Hin]; [done|].
        by apply list_elem_of_singleton in Hin.
      - apply NoDup_cons. split; [|apply NoDup_singleton].
        intros Hin. by apply list_elem_of_singleton in Hin. }
    split; [simpl; lia|]. split.
    + intros [|[|i]] c Hi Hc; try lia; simpl in Hc; by simplify_eq.
    + intros c Hc. simpl in Hc. simplify_eq. split; [reflexivity|by eexists].
Qed.

Lemma updateRecord_returned (this : Cloudflare) (record : value number)
  (v : option jsstring) (log log' : list (FetchCall number)) (x : value number) :
  updateRecord provider this record v log = (Return x, log') ->
  exists c answer,
    log' = log ++ [c]
    /\ call_method c = Some (lit "PUT")
    /\ provider log c = JsonBody answer
    /\ member answer (lit "success") = Return (VBool true).
Proof.
  unfold updateRecord, bind, lift, throw, fetch_json.
  destruct (set_content record _) as [record'|]; [|done].
  destruct (member record' (lit "zone_id")) as [z|]; [|done].
  destruct (to_string z) as [zone_id|]; [|done].
  destruct (member record' (lit "id")) as [i|]; [|done].
  destruct (to_string i) as [id|]; [|done].
  destruct (provider log _) as [stack|stack|answer] eqn:Hanswer; try done.
  destruct (member answer (lit "success")) as [success|] eqn:Hs; [|done].
  destruct (is_not_true success) eqn:Hnot; [done|].
  apply is_not_true_false in Hnot as ->.
  intros [= _ <-]. exists (update_call this zone_id id record'), answer.
  by repeat split.
Qed.

(** What the update flow returns, it returns after an accepted [PUT]. *)
Lemma informAPI_returned (ip : option jsstring) (u : URL) (name token : jsstring)
  (response : Response) (log : list (FetchCall number)) :
  informAPI provider ip u name token [] = (Return response, log) ->
  response = good
  /\ exists c1 c2 c3 answer,
       log = [c1; c2; c3]
       /\ call_method c3 = Some (lit "PUT")
       /\ provider [c1; c2] c3 = JsonBody answer
       /\ member answer (lit "success") = Return (VBool true).
Proof.
  unfold informAPI, bind at 1.
  pose proof (findZone_log provider (new_Cloudflare token) name []) as Hz.
  destruct (findZone _ _ _ _) as [[zone|e1] log1]; [|done]. simpl in Hz. subst log1.
  unfold bind at 1.
  destruct (findRecord _ _ _ _ _) as [[record|e2] log2] eqn:Hrecord; [|done].
  destruct (findRecord_returned_log provider _ _ _ _ _ _ Hrecord) as [zone_id ->].
  unfold bind, ret.
  destruct (updateRecord _ _ _ _ _) as [[result|e3] log3] eqn:Hupdate; [|done].
  destruct (updateRecord_returned _ _ _ _ _ _ Hupdate)
    as (c & answer & -> & Hmethod & Hanswer & Hsuccess).
  intros [= <- <-]. split; [reflexivity|].
  by exists (zone_call (new_Cloudflare token) name),
            (record_call (new_Cloudflare token) zone_id
               (searchParams_get (lit "hostname") (searchParams u))),
            c, answer.
Qed.

(** X13. On an update path the handler returns a response only after
    three calls of which the last, a [PUT], was answered with
    [success: true]; that response is the [good] one. *)
Theorem good_only_after_accepted_update (request : Request)
  (response : Response) (log : list (FetchCall number)) :
  update_path request ->
  handleRequest provider request [] = (Return response, log) ->
  response = good
  /\ exists c1 c2 c3 answer,
       log = [c1; c2; c3]
       /\ call_method c3 = Some (lit "PUT")
       /\ provider [c1; c2] c3 = JsonBody answer
       /\ member answer (lit "success") = Return (VBool true).
Proof.
  intros Hpath. unfold handleRequest.
  destruct (negb _ || negb _); [done|].
  destruct (update_path_check _ Hpath) as [-> ->].
  destruct (headers_has request (lit "Authorization")); [|done].
  unfold bind at 1, lift at 1.
  destruct (basicAuthentication request) as [[username password]|e]; [|done].
  unfold bind at 1, lift at 1.
  destruct (verifyParameters (url request)); [|done].
  apply informAPI_returned.
Qed.

(** ** Credentials *)

(** X16. The scheme word of the [Authorization] value is not
    examined, and nothing after a second space is read: any value
    [<scheme> <encoded>] or [<scheme> <encoded> <more>] decodes as
    [Basic <encoded>] does. *)
Theorem scheme_and_trailer_ignored (scheme encoded : jsstring) :
  32%N ∉ scheme ->
  32%N ∉ encoded ->
  decoded_text (scheme ++ 32%N :: encoded)
  = decoded_text (lit "Basic" ++ 32%N :: encoded)
  /\ forall more,
       decoded_text (scheme ++ 32%N :: encoded ++ 32%N :: more)
       = decoded_text (lit "Basic" ++ 32%N :: encoded).
Proof.
  intros Hscheme Hencoded.
  assert (32%N ∉ lit "Basic") as Hbasic.
  { intros Hin. apply list_elem_of_In in Hin. vm_compute in Hin.
    intuition discriminate. }
  destruct (split_second_piece scheme encoded Hscheme Hencoded) as [Hone Hmore].
  destruct (split_second_piece (lit "Basic") encoded Hbasic Hencoded) as [Hb _].
  unfold decoded_text. rewrite Hone, Hb. split; [reflexivity|].
  intros more. by rewrite Hmore.
Qed.

(** X17. An [Authorization] value without a space leaves [encoded]
    undefined, so [atob] is given the text [undefined]; when [atob]
    rejects it, an update request fails with that runtime error and
    status 500, not with a [BadRequestException], and the provider is
    not called. *)
Theorem header_without_space (request : Request) (Authorization : jsstring)
  (stack : option jsstring) :
  secure request ->
  update_path request ->
  headers_get request (lit "Authorization") = Some Authorization ->
  32%N ∉ Authorization ->
  atob (lit "undefined") = inl stack ->
  handleRequest provider request [] = (Throw (RuntimeError stack), [])
  /\ status (error_response (RuntimeError stack)) = 500
  /\ exn_reason (RuntimeError stack) = None.
Proof.
  intros Hsec Hpath Hheader Hspace Hatob. split; [|by split].
  unfold handleRequest. rewrite (secure_check _ Hsec).
  destruct (update_path_check _ Hpath) as [-> ->].
  assert (headers_has request (lit "Authorization") = true) as ->.
  { apply headers_has_get. by eexists. }
  unfold bind at 1, lift at 1, basicAuthentication. rewrite Hheader.
  unfold decoded_text. rewrite (split_no_separator _ _ Hspace).
  change ([Authorization] !! 1%nat) with (@None jsstring).
  cbv beta iota zeta. by rewrite Hatob.
Qed.

(** X18. Credentials that the parser returns always have this shape:
    the decoded text of the header is the username, a colon, and the
    password; the username has no colon; neither part has an ASCII
    control character. *)
Theorem parsed_credentials_shape (request : Request) (username password : jsstring) :
  basicAuthentication request = Return (username, password) ->
  exists Authorization,
    headers_get request (lit "Authorization") = Some Authorization
    /\ decoded_text Authorization = Return (username ++ 58%N :: password)
    /\ (58%N ∉ username)
    /\ forall c, c ∈ username ++ password -> (31 < c)%N /\ c <> 127%N.
Proof.
  unfold basicAuthentication.
  destruct (headers_get request (lit "Authorization")) as [Authorization|]; [|done].
  destruct (decoded_text Authorization) as [decoded|] eqn:Hdecoded; [|done].
  simpl bind_outcome.
  destruct ((indexOf 58 decoded =? -1) || has_control decoded) eqn:Hcheck; [done|].
  apply orb_false_iff in Hcheck as [Hindex Hctl]. apply Z.eqb_neq in Hindex.
  destruct (indexOf_found _ _ _ eq_refl Hindex)
    as (before & after & -> & Hfirst & Hlen).
  rewrite Hlen, substring_before, substring_from_after.
  intros [= <- <-]. exists Authorization.
  split; [done|]. split; [done|]. split; [done|].
  intros c Hc.
  assert (c ∈ before ++ 58%N :: after) as Hin.
  { apply elem_of_app in Hc as [Hc|Hc]; apply elem_of_app;
      [by left|right; by apply elem_of_cons; right]. }
  assert (~ ((c <= 31)%N \/ c = 127%N)) as Hclean; [|lia].
  intros Hcontrol.
  assert (has_control (before ++ 58%N :: after) = true) as Hyes; [|congruence].
  apply has_control_true. by exists c.
Qed.

(** ** Responses to failures *)

(** X19. In the response to any failure, [Content-Length] is the
    number of UTF-16 code units of the body text: it never exceeds the
    number of bytes of the body, and equals it when the text is within
    ASCII. *)
Theorem content_length_never_exceeds_body (e : exn) :
  let r := error_response e in
  exists n,
    response_header (lit "Content-Length") r = Some (decimal n)
    /\ body r = Some (error_message e)
    /\ n = length (error_message e)
    /\ (n <= length (body_bytes r))%nat
    /\ (ascii_text (error_message e) -> n = length (body_bytes r)).
Proof.
  intros r. exists (length (error_message e)).
  split; [by vm_compute|]. split; [reflexivity|]. split; [reflexivity|].
  unfold body_bytes, r. simpl body. split.
  - apply utf8_encode_length.
  - intros Hascii. symmetry. by apply utf8_encode_ascii.
Qed.

(** X20. The response to any failure has a body that is not empty (the
    reason, else the stack, else [Unknown Error]), is plain text, is
    not to be cached, and has status 400, 401 or 500. *)
Theorem error_response_always_readable (e : exn) :
  let r := error_response e in
  (exists c t, body r = Some (c :: t))
  /\ response_header (lit "Content-Type") r = Some (lit "text/plain;charset=UTF-8")
  /\ response_header (lit "Cache-Control") r = Some (lit "no-store")
  /\ status r ∈ [400; 401; 500].
Proof.
  intros r. subst r. split; [|split; [by vm_compute|split; [by vm_compute|]]].
  - unfold error_response, error_message. simpl body.
    destruct e as [[|c t]|[|c t]|[|c t]|[[|c t]|]]; simpl;
      try (by eexists _, _); unfold lit; simpl; by eexists _, _.
  - destruct e; simpl; set_solver.
Qed.

(** The errors of property accesses are the engine's [TypeError]. *)
Lemma member_throws_TypeError (v : value number) (key : jsstring) (e : exn) :
  member v key = Throw e -> e = TypeError.
Proof. destruct v; simpl; intros Hm; by simplify_eq. Qed.

Lemma length_is_zero_throws_TypeError (v : value number) (e : exn) :
  length_is_zero v = Throw e -> e = TypeError.
Proof. destruct v; simpl; intros Hm; by simplify_eq. Qed.

Lemma first_element_throws_TypeError (v : value number) (e : exn) :
  first_element v = Throw e -> e = TypeError.
Proof. destruct v; simpl; intros Hm; by simplify_eq. Qed.

Lemma set_content_throws_TypeError (record v : value number) (e : exn) :
  set_content record v = Throw e -> e = TypeError.
Proof. destruct record; simpl; intros Hm; by simplify_eq. Qed.

Lemma lookup_failed_throws_TypeError (answer : value number) (e : exn) :
  lookup_failed answer = Throw e -> e = TypeError.
Proof.
  unfold lookup_failed, bind_outcome.
  destruct (member answer (lit "success")) as [success|e0] eqn:Hs.
  - destruct (is_not_true success); [done|].
    destruct (member answer (lit "result")) as [result|e1] eqn:Hr.
    + apply length_is_zero_throws_TypeError.
    + intros [= <-]. by apply member_throws_TypeError in Hr.
  - intros [= <-]. by apply member_throws_TypeError in Hs.
Qed.

Lemma first_result_throws_TypeError (answer : value number) (e : exn) :
  first_result answer = Throw e -> e = TypeError.
Proof.
  unfold first_result, bind_outcome.
  destruct (member answer (lit "result")) as [result|e1] eqn:Hr.
  - apply first_element_throws_TypeError.
  - intros [= <-]. by apply member_throws_TypeError in Hr.
Qed.

(** Decomposes a run that ended in [Throw], keeping the kind of the
    exception. *)
Ltac thrown_kind :=
  repeat match goal with
    | Hrun : (_, _) = (_, _) |- _ => progress simplify_eq
    | Hrun : context [match ?m with _ => _ end] |- _ => destruct m eqn:?
    | Hm : member _ _ = Throw _ |- _ => apply member_throws_TypeError in Hm
    | Hm : set_content _ _ = Throw _ |- _ =>
        apply set_content_throws_TypeError in Hm
    | Hm : to_string _ = Throw _ |- _ =>
        apply to_string_throws_TypeError in Hm
    | Hm : lookup_failed _ = Throw _ |- _ =>
        apply lookup_failed_throws_TypeError in Hm
    | Hm : first_result _ = Throw _ |- _ =>
        apply first_result_throws_TypeError in Hm
    end;
  simplify_eq; simpl; auto.

(** An exception of the client has status 500 or none. *)
Lemma client_throws_status :
  (forall this name log log' e,
      findZone provider this name log = (Throw e, log') ->
      exn_status e = Some 500 \/ exn_status e = None)
  /\ (forall this zone name log log' e,
        findRecord provider this zone name log = (Throw e, log') ->
        exn_status e = Some 500 \/ exn_status e = None)
  /\ (forall this record v log log' e,
        updateRecord provider this record v log = (Throw e, log') ->
        exn_status e = Some 500 \/ exn_status e = None).
Proof.
  repeat split.
  - intros this name log log' e.
    unfold findZone, bind, lift, throw, fetch_json. intros Hrun. thrown_kind.
  - intros this zone name log log' e.
    unfold findRecord, bind, lift, throw, fetch_json. intros Hrun. thrown_kind.
  - intros this record v log log' e.
    unfold updateRecord, bind, lift, throw, fetch_json. intros Hrun. thrown_kind.
Qed.

Lemma informAPI_throws_status (ip : option jsstring) (u : URL)
  (name token : jsstring) (log : list (FetchCall number)) (e : exn) :
  informAPI provider ip u name token [] = (Throw e, log) ->
  exn_status e = Some 500 \/ exn_status e = None.
Proof.
  destruct client_throws_status as (Hzone & Hrecord & Hupdate).
  unfold informAPI, bind at 1.
  destruct (findZone _ _ _ _) as [[zone|e1] log1] eqn:Hz.
  - unfold bind at 1.
    destruct (findRecord _ _ _ _ _) as [[record|e2] log2] eqn:Hr.
    + unfold bind, ret.
      destruct (updateRecord _ _ _ _ _) as [[result|e3] log3] eqn:Hu; [done|].
      intros [= <- <-]. eauto.
    + intros [= <- <-]. eauto.
  - intros [= <- <-]. eauto.
Qed.

Lemma basicAuthentication_throws_status (request : Request) (e : exn) :
  basicAuthentication request = Throw e ->
  exn_status e = Some 400 \/ exn_status e = None.
Proof.
  unfold basicAuthentication, decoded_text, bind_outcome. intros Hrun.
  repeat match goal with
    | Hrun : context [match ?m with _ => _ end] |- _ => destruct m eqn:?
    end; simplify_eq; simpl; auto.
Qed.

(** X21. Whatever the request and the provider's answers, the listener
    answers with status 200, 204, 404, 400 or 500: the
    [UnauthorizedException] of the script, status 401, is never
    thrown. *)
Theorem listener_statuses (request : Request) :
  status (fst (respond provider request)) ∈ answered_statuses.
Proof.
  unfold respond, answered_statuses.
  destruct (handleRequest provider request []) as [[response|e] log] eqn:Hrun;
    simpl.
  - revert Hrun. unfold handleRequest.
    destruct (negb _ || negb _); [done|].
    destruct (str_eqb _ (lit "/myip")); [intros [= <- <-]; set_solver|].
    destruct (str_eqb _ (lit "/nic/update") || str_eqb _ (lit "/update")).
    + destruct (headers_has request (lit "Authorization")); [|done].
      unfold bind at 1, lift at 1.
      destruct (basicAuthentication request) as [[username password]|e]; [|done].
      unfold bind at 1, lift at 1.
      destruct (verifyParameters (url request)); [|done].
      intros Hflow. destruct (informAPI_returned _ _ _ _ _ _ Hflow) as [-> _].
      set_solver.
    + destruct (str_eqb _ (lit "/favicon.ico") || str_eqb _ (lit "/robots.txt"));
        intros [= <- <-]; set_solver.
  - assert (exn_status e = Some 400 \/ exn_status e = Some 500
            \/ exn_status e = None) as Hstatus.
    { revert Hrun. unfold handleRequest.
      destruct (negb _ || negb _); [intros [= <- <-]; by left|].
      destruct (str_eqb _ (lit "/myip")); [done|].
      destruct (str_eqb _ (lit "/nic/update") || str_eqb _ (lit "/update")).
      - destruct (headers_has request (lit "Authorization"));
          [|intros [= <- <-]; by left].
        unfold bind at 1, lift at 1.
        destruct (basicAuthentication request) as [[username password]|e0]
          eqn:Hauth.
        + unfold bind at 1, lift at 1, verifyParameters.
          destruct (searchParams_get _ _) as [[|c hostname]|];
            try (intros [= <- <-]; by left).
          intros Hflow.
          destruct (informAPI_throws_status _ _ _ _ _ _ Hflow); auto.
        + intros [= <- <-].
          destruct (basicAuthentication_throws_status _ _ Hauth); auto.
      - by destruct (str_eqb _ (lit "/favicon.ico")
                     || str_eqb _ (lit "/robots.txt")). }
    unfold error_response. simpl status.
    destruct Hstatus as [-> | [-> | ->]]; simpl; set_solver.
Qed.

End Coverage.

(** * The further properties on the sample requests *)

Section MoreOnSamples.

#[local] Existing Instance Reference.runtime.

(** Decides that a given text lacks a given code unit. *)
Ltac absent :=
  let Hin := fresh "Hin" in
  intros Hin; apply list_elem_of_In in Hin; vm_compute in Hin;
  intuition discriminate.

(** Decides that two given values differ. *)
Ltac differ :=
  let Heq := fresh "Heq" in
  intros Heq; vm_compute in Heq; discriminate.

Lemma empty_password_is_update_request :
  update_request MoreSamples.empty_password_update
    (lit "alice") [] (lit "home.example.com").
Proof. repeat split; try (right; reflexivity); by vm_compute. Defined.

Lemma myip_echoes_address_witness :
  exists response,
    handleRequest Sample.provider_ok MoreSamples.myip_request []
    = (Return response, [])
    /\ status response = 200
    /\ body response = headers_get MoreSamples.myip_request (lit "cf-connecting-ip")
    /\ response_headers response = [].
Proof.
  apply (myip_echoes_address Sample.provider_ok MoreSamples.myip_request).
  - split; by vm_compute.
  - reflexivity.
Defined.

Lemma static_paths_no_content_witness :
  exists response,
    handleRequest Sample.provider_ok MoreSamples.favicon_request []
    = (Return response, [])
    /\ status response = 204
    /\ body response = None
    /\ body_bytes response = [].
Proof.
  apply (static_paths_no_content Sample.provider_ok MoreSamples.favicon_request).
  - split; by vm_compute.
  - left. reflexivity.
Defined.

Lemma unknown_path_not_found_witness :
  exists response,
    handleRequest Sample.provider_ok MoreSamples.unknown_request []
    = (Return response, [])
    /\ status response = 404
    /\ body response = Some (lit "Not Found.").
Proof.
  apply (unknown_path_not_found Sample.provider_ok MoreSamples.unknown_request).
  - split; by vm_compute.
  - intros Hin. apply list_elem_of_In in Hin. vm_compute in Hin.
    intuition discriminate.
Defined.

Lemma provider_called_only_for_update_requests_witness :
  exists username password hostname,
    update_request Sample.alice_update username password hostname.
Proof.
  apply (provider_called_only_for_update_requests Sample.provider_ok
           Sample.alice_update (Return good) Sample.alice_calls).
  - by vm_compute.
  - differ.
Defined.

Lemma well_formed_answers_succeed_witness :
  handleRequest MoreSamples.provider_two_zones Sample.alice_update []
  = (Return good, Sample.alice_calls).
Proof.
  refine (proj1 (well_formed_answers_succeed MoreSamples.provider_two_zones
                   Sample.alice_update
                   (lit "alice") (lit "p@ss:word") (lit "home.example.com")
                   alice_update_is_update_request
                   (MoreSamples.members_of Sample.sample_zone)
                   (MoreSamples.members_of Sample.sample_record)
                   [MoreSamples.other_zone] []
                   (MoreSamples.members_of
                      (Sample.json_object true
                         (VArray [Sample.sample_zone; MoreSamples.other_zone])))
                   (MoreSamples.members_of
                      (Sample.json_object true (VArray [Sample.sample_record])))
                   (lit "023e105f4ecef8ad9ca31a8372d0c353") (lit "023e105f4ecef8ad9ca31a8372d0c353") (lit "372e67954025e0ba6aaa6d586b9e0b59")
                   _ _ _ _ _ _ _ _ _
                   (MoreSamples.members_of
                      (Sample.json_object true Sample.sample_record))
                   Sample.sample_record _ _ _ _ _));
    try (by vm_compute); differ.
Defined.

Lemma record_lookup_failure_stops_witness :
  handleRequest Sample.provider_no_record Sample.alice_update []
  = (Throw (CloudflareApiException
              (lit "Failed to find dns record 'home.example.com'")),
     take 2 Sample.alice_calls).
Proof.
  refine (record_lookup_failure_stops Sample.provider_no_record
            Sample.alice_update
            (lit "alice") (lit "p@ss:word") (lit "home.example.com")
            alice_update_is_update_request
            (MoreSamples.members_of Sample.sample_zone) []
            (MoreSamples.members_of
               (Sample.json_object true (VArray [Sample.sample_zone])))
            (MoreSamples.members_of (Sample.json_object true (VArray [])))
            (lit "023e105f4ecef8ad9ca31a8372d0c353")
            _ _ _ _ _ _);
    try (by vm_compute).
  right. by vm_compute.
Defined.

Lemma update_refused_reported_witness :
  exists err,
    handleRequest MoreSamples.provider_update_refused Sample.alice_update []
    = (Throw err, Sample.alice_calls)
    /\ err = CloudflareApiException (lit "Failed to update dns record")
    /\ status (error_response err) = 500
    /\ body (error_response err) = Some (lit "Failed to update dns record").
Proof.
  refine (update_refused_reported MoreSamples.provider_update_refused
            Sample.alice_update
            (lit "alice") (lit "p@ss:word") (lit "home.example.com")
            alice_update_is_update_request
            (MoreSamples.members_of Sample.sample_zone)
            (MoreSamples.members_of Sample.sample_record) [] []
            (MoreSamples.members_of
               (Sample.json_object true (VArray [Sample.sample_zone])))
            (MoreSamples.members_of
               (Sample.json_object true (VArray [Sample.sample_record])))
            (lit "023e105f4ecef8ad9ca31a8372d0c353") (lit "023e105f4ecef8ad9ca31a8372d0c353") (lit "372e67954025e0ba6aaa6d586b9e0b59")
            _ _ _ _ _ _ _ _ _
            (MoreSamples.members_of (Sample.json_object false VNull))
            _ _);
    try (by vm_compute); differ.
Defined.

Lemma update_answer_without_result_witness :
  handleRequest MoreSamples.provider_update_without_result Sample.alice_update []
  = (Throw TypeError, Sample.alice_calls)
  /\ status (error_response TypeError) = 500.
Proof.
  refine (update_answer_without_result
            MoreSamples.provider_update_without_result Sample.alice_update
            (lit "alice") (lit "p@ss:word") (lit "home.example.com")
            alice_update_is_update_request
            (MoreSamples.members_of Sample.sample_zone)
            (MoreSamples.members_of Sample.sample_record) [] []
            (MoreSamples.members_of
               (Sample.json_object true (VArray [Sample.sample_zone])))
            (MoreSamples.members_of
               (Sample.json_object true (VArray [Sample.sample_record])))
            (lit "023e105f4ecef8ad9ca31a8372d0c353") (lit "023e105f4ecef8ad9ca31a8372d0c353") (lit "372e67954025e0ba6aaa6d586b9e0b59")
            _ _ _ _ _ _ _ _ _
            [ (lit "success", VBool true) ]
            _ _ _);
    try (by vm_compute).
  left. by vm_compute.
Defined.

Lemma zone_answer_without_result_witness :
  handleRequest MoreSamples.provider_zone_without_result Sample.alice_update []
  = (Throw TypeError, take 1 Sample.alice_calls)
  /\ status (error_response TypeError) = 500.
Proof.
  apply (zone_answer_without_result MoreSamples.provider_zone_without_result
           Sample.alice_update
           (lit "alice") (lit "p@ss:word") (lit "home.example.com")
           [ (lit "success", VBool true) ]).
  - exact alice_update_is_update_request.
  - reflexivity.
  - by vm_compute.
  - left. by vm_compute.
Defined.

Lemma zone_id_with_toString_member_witness :
  handleRequest MoreSamples.provider_unprintable_zone Sample.alice_update []
  = (Throw TypeError, take 1 Sample.alice_calls)
  /\ status (error_response TypeError) = 500.
Proof.
  apply (zone_id_with_toString_member MoreSamples.provider_unprintable_zone
           Sample.alice_update
           (lit "alice") (lit "p@ss:word") (lit "home.example.com")
           (MoreSamples.members_of
              (Sample.json_object true (VArray [MoreSamples.unprintable_zone])))
           (MoreSamples.members_of MoreSamples.unprintable_zone) []
           [ (lit "toString", VNumber 0) ]).
  - exact alice_update_is_update_request.
  - reflexivity.
  - by vm_compute.
  - by vm_compute.
  - by vm_compute.
  - eexists. by vm_compute.
Defined.

Lemma calls_carry_bearer_token_witness :
  call_headers (zone_call (new_Cloudflare (lit "p@ss:word")) (lit "alice")
                : FetchCall Z)
  = [ (lit "Content-Type", lit "application/json");
      (lit "Authorization", lit "Bearer " ++ lit "p@ss:word") ].
Proof.
  apply (calls_carry_bearer_token Sample.provider_ok Sample.alice_update
           (lit "alice") (lit "p@ss:word") (lit "home.example.com")).
  - exact alice_update_is_update_request.
  - differ.
  - apply list_elem_of_In. vm_compute. auto.
Defined.

Lemma empty_password_sends_undefined_witness :
  assoc (lit "Authorization")
    (call_headers (zone_call (new_Cloudflare []) (lit "alice") : FetchCall Z))
  = Some (lit "Bearer undefined").
Proof.
  apply (empty_password_sends_undefined Sample.provider_ok
           MoreSamples.empty_password_update
           (lit "alice") (lit "home.example.com")).
  - exact empty_password_is_update_request.
  - apply list_elem_of_In. vm_compute. auto.
Defined.

Lemma good_only_after_accepted_update_witness :
  good = good
  /\ exists c1 c2 c3 answer,
       Sample.alice_calls = [c1; c2; c3]
       /\ call_method c3 = Some (lit "PUT")
       /\ Sample.provider_ok [c1; c2] c3 = JsonBody answer
       /\ member answer (lit "success") = Return (VBool true).
Proof.
  apply (good_only_after_accepted_update Sample.provider_ok Sample.alice_update
           good Sample.alice_calls).
  - right. reflexivity.
  - by vm_compute.
Defined.

Lemma scheme_and_trailer_ignored_witness :
  decoded_text (lit "Bearer" ++ 32%N :: lit "YWxpY2U6cEBzczp3b3Jk")
  = decoded_text (lit "Basic" ++ 32%N :: lit "YWxpY2U6cEBzczp3b3Jk")
  /\ forall more,
       decoded_text (lit "Bearer" ++ 32%N :: lit "YWxpY2U6cEBzczp3b3Jk"
                       ++ 32%N :: more)
       = decoded_text (lit "Basic" ++ 32%N :: lit "YWxpY2U6cEBzczp3b3Jk").
Proof.
  apply (scheme_and_trailer_ignored (lit "Bearer") (lit "YWxpY2U6cEBzczp3b3Jk"));
    absent.
Defined.

Lemma header_without_space_witness :
  handleRequest Sample.provider_ok MoreSamples.no_space_update []
  = (Throw (RuntimeError None), [])
  /\ status (error_response (RuntimeError None)) = 500
  /\ exn_reason (RuntimeError None) = None.
Proof.
  apply (header_without_space Sample.provider_ok MoreSamples.no_space_update
           (lit "BasicYWxpY2U6cEBzczp3b3Jk") None).
  - split; by vm_compute.
  - right. reflexivity.
  - by vm_compute.
  - absent.
  - by vm_compute.
Defined.

Lemma parsed_credentials_shape_witness :
  exists Authorization,
    headers_get Sample.alice_update (lit "Authorization") = Some Authorization
    /\ decoded_text Authorization = Return (lit "alice" ++ 58%N :: lit "p@ss:word")
    /\ (58%N ∉ lit "alice")
    /\ forall c, c ∈ lit "alice" ++ lit "p@ss:word" -> (31 < c)%N /\ c <> 127%N.
Proof.
  apply (parsed_credentials_shape Sample.alice_update
           (lit "alice") (lit "p@ss:word")).
  by vm_compute.
Defined.

End MoreOnSamples.
